(** * The langgraph chatbot: the agent loop of [chatbot.py]

    [chatbot.py] declares a two-node graph (a chat-model node and a
    tool node), compiles it with an in-memory checkpointer and drives
    it from a console loop.  This file embeds that program: the message
    data, the state with its reducer, the graph as the builder calls
    declare it, the streaming run with its checkpoints, and the
    interactive loop with its [try]/[except].

    The language model and the search tool are external collaborators;
    they are variables of the development.  Effects (console, standard
    input, the checkpointer, calls of the model) are threaded through a
    small state-and-exception monad over a [World]. *)

From Stdlib Require Import Ascii String List Arith Lia.
From stdpp Require Import base option list strings gmap.

Local Open Scope string_scope.
Local Open Scope list_scope.

(** ** Messages *)

Inductive Role := User | Assistant | Tool.

Record ToolCallRequest := {
  tool_name : string;
  arguments : string;
  call_id : string
}.

(** Exceptions the program can meet. *)
Inductive Exn :=
| EOFError
| KeyboardInterrupt
| IndexError
| KeyError (key : string)
| ValueError (what : string)
| GraphRecursionError
| Exception (what : string).

(** What a tool round can report instead of a result. *)
Inductive ToolError :=
| UnknownToolError (requested : string)
| ToolExecutionError (cause : Exn).

Inductive Payload :=
| Success (result : string)
| Failure (error : ToolError).

Record ToolCallResult := {
  result_call_id : string;
  payload : Payload
}.

(** Modelled from the spec: the message classes live in the message
    library, not in [chatbot.py]; a message is the record of section 3
    of the specification: a role, a content, optional tool call
    requests and an optional tool call result. *)
Record Message := {
  role : Role;
  content : string;
  tool_call_requests : option (list ToolCallRequest);
  tool_call_result : option ToolCallResult
}.

(** The input [("user", user_input)] of [stream_graph_updates]. *)
Definition user_message (text : string) : Message :=
  {| role := User; content := text;
     tool_call_requests := None; tool_call_result := None |}.

Definition is_error_bearing (m : Message) : bool :=
  match tool_call_result m with
  | Some {| payload := Failure _ |} => true
  | _ => false
  end.

(** The requests an assistant message carries; none when the field is
    absent. *)
Definition requests_of (m : Message) : list ToolCallRequest :=
  default [] (tool_call_requests m).

(** ** The state and its reducer *)

(** [class State(TypedDict): messages: Annotated[list, add_messages]] *)
Record State := { messages : list Message }.

(** The reducer named in the annotation of [State.messages], on
    messages whose ids are new to the thread.  The source documents it:
    "it appends messages to the list, rather than overwriting them".
    A [Message] carries no id: the messages this program writes (the
    user input, the replies of the model, the tool results) come
    without an id of the thread, and on those the reducer appends.
    What the reducer does with a write that carries the id of a stored
    message is [add_messages_by_id] below. *)
Definition add_messages (left right : list Message) : list Message :=
  left ++ right.

(** A node returns a partial state; the graph merges it into the
    current state through the reducer of each key. *)
Definition apply_update (st update : State) : State :=
  {| messages := add_messages (messages st) (messages update) |}.

Definition apply_writes (st : State) (updates : list State) : State :=
  fold_left apply_update updates st.

(** ** The world and the monad of effects *)

Inductive Effect :=
| Prompt (text : string)                       (* the prompt of [input] *)
| Print (line : string)                        (* one [print] *)
| Stream (thread_id : string) (input : list Message)   (* one [graph.stream] *)
| NodeRun (node : string)                      (* a node of the graph runs *)
| ModelCall (history : list Message)           (* [llm_with_tools.invoke] *)
| Checkpoint (thread_id : string) (saved : list Message).

Record World := {
  memory : gmap string (list Message);   (* the [MemorySaver] *)
  stdin : list (Exn + string);           (* what each [input] will give *)
  journal : list Effect                  (* effects so far, oldest first *)
}.

Inductive Result (A : Type) :=
| Ok (a : A)
| Raise (e : Exn)
| Unfinished.
Arguments Ok {A} a.
Arguments Raise {A} e.
Arguments Unfinished {A}.

Definition M (A : Type) : Type := World -> World * Result A.

Definition ret {A} (a : A) : M A := fun w => (w, Ok a).

Definition bind {A B} (m : M A) (k : A -> M B) : M B :=
  fun w =>
    match m w with
    | (w', Ok a) => k a w'
    | (w', Raise e) => (w', Raise e)
    | (w', Unfinished) => (w', Unfinished)
    end.

Definition raise {A} (e : Exn) : M A := fun w => (w, Raise e).

Definition unfinished {A} : M A := fun w => (w, Unfinished).

(** [try: body except: handler], with the bare [except:] of the
    source: every exception is caught. *)
Definition try_except {A} (body handler : M A) : M A :=
  fun w =>
    match body w with
    | (w', Raise _) => handler w'
    | r => r
    end.

Notation "'let*' x := m 'in' k" := (bind m (fun x => k))
  (at level 10, x name, m at level 100, k at level 200, only parsing).

Definition record (e : Effect) : M unit :=
  fun w =>
    ({| memory := memory w; stdin := stdin w; journal := journal w ++ [e] |},
     Ok tt).

Definition print (line : string) : M unit := record (Print line).

(** [input(prompt)]: writes the prompt, then gives the next line of
    standard input or raises; an exhausted input raises [EOFError]. *)
Definition input (prompt : string) : M string :=
  fun w =>
    let j := journal w ++ [Prompt prompt] in
    match stdin w with
    | [] => ({| memory := memory w; stdin := []; journal := j |}, Raise EOFError)
    | inl e :: rest =>
        ({| memory := memory w; stdin := rest; journal := j |}, Raise e)
    | inr line :: rest =>
        ({| memory := memory w; stdin := rest; journal := j |}, Ok line)
    end.

(** The checkpointer: the saved messages of a thread, none for a thread
    it does not know. *)
Definition load (thread_id : string) (w : World) : list Message :=
  default [] (memory w !! thread_id).

Definition get_state (thread_id : string) : M State :=
  fun w => (w, Ok {| messages := load thread_id w |}).

Definition put_state (thread_id : string) (st : State) : M unit :=
  fun w =>
    ({| memory := <[thread_id := messages st]> (memory w);
        stdin := stdin w;
        journal := journal w ++ [Checkpoint thread_id (messages st)] |},
     Ok tt).

(** ** Strings: [str.lower] on the letters A to Z *)

Definition lower_ascii (c : ascii) : ascii :=
  let n := nat_of_ascii c in
  if ((65 <=? n) && (n <=? 90))%nat then ascii_of_nat (n + 32) else c.

Fixpoint lower (s : string) : string :=
  match s with
  | EmptyString => EmptyString
  | String c rest => String (lower_ascii c) (lower rest)
  end.

Definition string_in (s : string) (l : list string) : bool :=
  existsb (String.eqb s) l.

(** ** The reducer on message ids

    [add_messages], imported at line 8 of the source and named in the
    annotation of [State.messages], is the reducer of the graph
    library; it is not in [chatbot.py].  It keys the messages by their
    id: a message without an id is given a fresh one, a message whose
    id is in the thread replaces the stored message in place, a
    message whose id is new is appended, and a [RemoveMessage] deletes
    the stored message of its id. *)















(** ** The graph builder and the run of a compiled graph *)

Definition START : string := "__start__".
Definition END : string := "__end__".

Definition Node : Type := State -> M State.

Record StateGraph := {
  nodes : list (string * Node);
  edges : list (string * string);
  branches : list (string * ((State -> string) * list (string * string)))
}.

Definition StateGraph_init : StateGraph :=
  {| nodes := []; edges := []; branches := [] |}.

Definition add_node (name : string) (action : Node) (g : StateGraph) : StateGraph :=
  {| nodes := nodes g ++ [(name, action)]; edges := edges g; branches := branches g |}.

Definition add_edge (start_key end_key : string) (g : StateGraph) : StateGraph :=
  {| nodes := nodes g; edges := edges g ++ [(start_key, end_key)];
     branches := branches g |}.

Definition add_conditional_edges (source : string) (path : State -> string)
    (path_map : list (string * string)) (g : StateGraph) : StateGraph :=
  {| nodes := nodes g; edges := edges g;
     branches := branches g ++ [(source, (path, path_map))] |}.

Fixpoint assoc {A} (key : string) (l : list (string * A)) : option A :=
  match l with
  | [] => None
  | (k, v) :: rest => if String.eqb k key then Some v else assoc key rest
  end.

(** The targets of the plain edges that leave [node]. *)
Definition static_targets (g : StateGraph) (node : string) : list string :=
  map snd (List.filter (fun e => String.eqb (fst e) node) (edges g)).

(** The targets the conditional edges of [node] choose on state [st]:
    the path function names a key of the path map. *)
Fixpoint branch_targets (bs : list (string * ((State -> string) * list (string * string))))
    (node : string) (st : State) : M (list string) :=
  match bs with
  | [] => ret []
  | (source, (path, path_map)) :: rest =>
      if String.eqb source node then
        match assoc (path st) path_map with
        | Some target =>
            let* more := branch_targets rest node st in
            ret (target :: more)
        | None => raise (KeyError (path st))
        end
      else branch_targets rest node st
  end.

Fixpoint dedup (l : list string) : list string :=
  match l with
  | [] => []
  | x :: rest => if string_in x rest then dedup rest else x :: dedup rest
  end.

Fixpoint targets_of (g : StateGraph) (ran : list string) (st : State) : M (list string) :=
  match ran with
  | [] => ret []
  | node :: rest =>
      let* chosen := branch_targets (branches g) node st in
      let* more := targets_of g rest st in
      ret (static_targets g node ++ chosen ++ more)
  end.

(** The nodes of the next step: every target of the nodes that just
    ran, [END] apart (it is no node: reaching it schedules nothing). *)
Definition triggered (g : StateGraph) (ran : list string) (st : State) : M (list string) :=
  let* targets := targets_of g ran st in
  ret (dedup (List.filter (fun t => negb (String.eqb t END)) targets)).

(** One step runs every scheduled node on the same state. *)
Fixpoint run_nodes (g : StateGraph) (active : list string) (st : State) : M (list State) :=
  match active with
  | [] => ret []
  | name :: rest =>
      match assoc name (nodes g) with
      | Some action =>
          let* _ := record (NodeRun name) in
          let* update := action st in
          let* updates := run_nodes g rest st in
          ret (update :: updates)
      | None => raise (KeyError name)
      end
  end.

(** One step of a run: run the scheduled nodes, merge their writes
    through the reducer, save the checkpoint, hand the new state value
    to the consumer of the stream ([yield]), and schedule the next
    step. *)
Definition superstep (g : StateGraph) (tid : string) (active : list string)
    (st : State) (yield : State -> M unit) : M (list string * State) :=
  let* updates := run_nodes g active st in
  let st' := apply_writes st updates in
  let* _ := put_state tid st' in
  let* _ := yield st' in
  let* next := triggered g active st' in
  ret (next, st').

(** The loop of a run: steps as long as a node is scheduled, within
    the step limit of the run.  [step_limit] is the number of steps the
    graph library lets one run take; when it is used up and a node is
    still scheduled, the run raises [GraphRecursionError]. *)
Fixpoint pregel_loop (step_limit : nat) (g : StateGraph) (tid : string)
    (active : list string) (st : State) (yield : State -> M unit) : M unit :=
  match active with
  | [] => ret tt
  | _ :: _ =>
      match step_limit with
      | 0 => raise GraphRecursionError
      | S remaining =>
          let* next := superstep g tid active st yield in
          pregel_loop remaining g tid (fst next) (snd next) yield
      end
  end.

(** The three states of the loop controller (section 4.3 of the
    specification) are the schedules of the graph: the model node is
    scheduled, the tool node is scheduled, nothing is scheduled. *)
Inductive LoopState := AWAITING_MODEL | DISPATCHING_TOOLS | DONE.

Definition loop_state (active : list string) : option LoopState :=
  match active with
  | [] => Some DONE
  | [node] =>
      if String.eqb node "chatbot" then Some AWAITING_MODEL
      else if String.eqb node "tools" then Some DISPATCHING_TOOLS
      else None
  | _ => None
  end.

(** [config = {"configurable": {"thread_id": ...}}] *)
Record Config := { thread_id : string }.

(** [graph.stream(inputs, config=config, stream_mode="values")] on a
    graph compiled with the checkpointer [memory]: the run starts from
    the saved state of the thread, merges the input, and yields the
    state value after the input and after every step.  The [config] of
    the source names a thread and no recursion limit, so the run is
    under the default limit of the graph library: [step_limit], a value
    the source does not show and every result below is stated for. *)
Definition stream (step_limit : nat) (g : StateGraph) (inputs : State) (config : Config)
    (yield : State -> M unit) : M unit :=
  let tid := thread_id config in
  let* _ := record (Stream tid (messages inputs)) in
  let* saved := get_state tid in
  let st := apply_update saved inputs in
  let* _ := put_state tid st in
  let* _ := yield st in
  let* first := triggered g [START] st in
  pregel_loop step_limit g tid first st yield.

(** The body of the [for] loop of [stream_graph_updates]:
    [print("Assistant:", event["messages"][-1].content)]. *)
Definition print_last_message (event : State) : M unit :=
  match last (messages event) with
  | Some m => print ("Assistant: " ++ content m)
  | None => raise IndexError
  end.

(** ** The tool dispatcher *)

Record ToolDefinition := {
  name : string;
  invocation : string -> Exn + string
}.

Definition registry_of (tools : list ToolDefinition) : gmap string ToolDefinition :=
  list_to_map (map (fun t => (name t, t)) tools).
Arguments registry_of : simpl never.

(** The requests waiting in a state: those of its last message. *)
Definition pending (st : State) : list ToolCallRequest :=
  match last (messages st) with
  | Some m => requests_of m
  | None => []
  end.

(** [tools_condition], as the source describes it: "returns "tools" if
    the chatbot asks to use a tool, and "END" if it is fine directly
    responding". *)
Definition tools_condition (state : State) : string :=
  match pending state with
  | _ :: _ => "tools"
  | [] => END
  end.

Inductive Flow := Continue | Break.

(** [while True: body], [n] iterations at most in this definition. *)
Fixpoint while_true (n : nat) (body : M Flow) : M unit :=
  match n with
  | 0 => unfinished
  | S n' =>
      let* flow := body in
      match flow with
      | Break => ret tt
      | Continue => while_true n' body
      end
  end.

(** The exit status of the script as the shell sees it: 0 when it
    runs off its end, 1 when an exception escapes, 130 when the
    exception is [KeyboardInterrupt] (the interpreter then ends by the
    interrupt signal). *)
Definition exit_code (r : Result unit) : option nat :=
  match r with
  | Ok _ => Some 0
  | Raise KeyboardInterrupt => Some 130
  | Raise _ => Some 1
  | Unfinished => None
  end.

(** ** Reading a world *)

(** The world after further effects are written to the journal. *)
Definition logged (es : list Effect) (w : World) : World :=
  {| memory := memory w; stdin := stdin w; journal := journal w ++ es |}.

(** The world after the checkpointer holds [msgs] for a thread. *)
Definition saved (tid : string) (msgs : list Message) (w : World) : World :=
  {| memory := <[tid := msgs]> (memory w); stdin := stdin w; journal := journal w |}.

(** The lines printed, in order. *)
Fixpoint printed (j : list Effect) : list string :=
  match j with
  | [] => []
  | Print line :: rest => line :: printed rest
  | _ :: rest => printed rest
  end.

(** The thread of every run of the graph, in order. *)
Fixpoint streams (j : list Effect) : list string :=
  match j with
  | [] => []
  | Stream tid _ :: rest => tid :: streams rest
  | _ :: rest => streams rest
  end.

(** The thread of every checkpoint written, in order. *)
Fixpoint checkpoints (j : list Effect) : list string :=
  match j with
  | [] => []
  | Checkpoint tid _ :: rest => tid :: checkpoints rest
  | _ :: rest => checkpoints rest
  end.

(** The histories the model was called with, in order. *)
Fixpoint model_calls (j : list Effect) : list (list Message) :=
  match j with
  | [] => []
  | ModelCall history :: rest => history :: model_calls rest
  | _ :: rest => model_calls rest
  end.

(** How many times the tool node ran. *)
Fixpoint tool_rounds (j : list Effect) : nat :=
  match j with
  | [] => 0
  | NodeRun node :: rest =>
      (if String.eqb node "tools" then 1 else 0) + tool_rounds rest
  | _ :: rest => tool_rounds rest
  end.

(** The world after [input("User: ")] wrote its prompt and took what
    standard input had next. *)
Definition reads (w : World) : World :=
  {| memory := memory w; stdin := tail (stdin w);
     journal := journal w ++ [Prompt "User: "] |}.

(** The effects a run of the graph on thread [tid] writes once it has
    started: no prompt, no further run, checkpoints of [tid] only. *)
Definition run_effect (tid : string) (e : Effect) : Prop :=
  match e with
  | Prompt _ | Stream _ _ => False
  | Checkpoint t _ => t = tid
  | Print _ | NodeRun _ | ModelCall _ => True
  end.

(** What a run of the graph on thread [tid] may change in the world. *)
Record run_frame (tid : string) (w w' : World) : Prop := {
  frame_stdin : stdin w' = stdin w;
  frame_others : forall t, t <> tid -> memory w' !! t = memory w !! t;
  frame_prefix : load tid w `prefix_of` load tid w';
  frame_journal :
    exists es, journal w' = journal w ++ es /\ Forall (run_effect tid) es
}.

(** What the program may change in the world: every thread only grows
    at its end, and the runs and checkpoints are those of thread "1". *)
Record session_frame (w w' : World) : Prop := {
  session_grows : forall tid, load tid w `prefix_of` load tid w';
  session_others : forall t, t <> "1" -> memory w' !! t = memory w !! t;
  session_journal :
    exists es, journal w' = journal w ++ es /\
               Forall (eq "1") (streams es) /\
               Forall (eq "1") (checkpoints es)
}.

(** The input of every run of the graph, in order. *)
Fixpoint stream_inputs (j : list Effect) : list (list Message) :=
  match j with
  | [] => []
  | Stream _ input :: rest => input :: stream_inputs rest
  | _ :: rest => stream_inputs rest
  end.

(** A console line under the label of [stream_graph_updates]. *)
Definition labelled (line : string) : Prop :=
  exists text, line = ("Assistant: " ++ text)%string.

(** ** Sample collaborators

    The end-to-end scenario of the specification: a model that asks for
    one search on a user question and answers once the result is in,
    and a search tool that always succeeds. *)

Definition search_request : ToolCallRequest :=
  {| tool_name := "search"; arguments := "weather Paris"; call_id := "c1" |}.

Definition asks_search : Message :=
  {| role := Assistant; content := "Let me look that up.";
     tool_call_requests := Some [search_request]; tool_call_result := None |}.

Definition final_answer : Message :=
  {| role := Assistant; content := "It is sunny in Paris.";
     tool_call_requests := None; tool_call_result := None |}.

Definition sample_llm (history : list Message) : Exn + Message :=
  match last history with
  | Some m =>
      match role m with
      | User => inr asks_search
      | _ => inr final_answer
      end
  | None => inl (Exception "empty history")
  end.

Definition sample_tool : ToolDefinition :=
  {| name := "search"; invocation := fun _ => inr "Sunny, 21C" |}.

Definition sample_describe (err : ToolError) : string :=
  match err with
  | UnknownToolError requested => "unknown tool: " ++ requested
  | ToolExecutionError _ => "tool failed"
  end.

(** A model that asks for two tools in one message, one of them not
    registered, and a model that always answers directly. *)
Definition calculator_request : ToolCallRequest :=
  {| tool_name := "calculator"; arguments := "6*7"; call_id := "c2" |}.

Definition asks_two : Message :=
  {| role := Assistant; content := "Two lookups.";
     tool_call_requests := Some [search_request; calculator_request];
     tool_call_result := None |}.

Definition direct_llm (history : list Message) : Exn + Message :=
  inr final_answer.


(** A model that is not available, and a model that fails on the
    question "boom" and answers anything else directly. *)
Definition failing_llm (history : list Message) : Exn + Message :=
  inl (Exception "model unavailable").

Definition flaky_llm (history : list Message) : Exn + Message :=
  match last history with
  | Some m =>
      if String.eqb (content m) "boom" then inl (Exception "model unavailable")
      else inr final_answer
  | None => inr final_answer
  end.

(** ** The program *)

Section Chatbot.

(** [llm_with_tools.invoke]: the reply of the model to a history, or
    the exception it raises. *)
Variable llm_with_tools : list Message -> Exn + Message.

(** [tool = TavilySearchResults(...)] *)
Variable tool : ToolDefinition.

(** The text an error-bearing tool message shows. *)
Variable describe : ToolError -> string.

Definition tools : list ToolDefinition := [tool].

(** [def chatbot(state)] *)
Definition chatbot (state : State) : M State :=
  let* _ := record (ModelCall (messages state)) in
  match llm_with_tools (messages state) with
  | inr reply => ret {| messages := [reply] |}
  | inl e => raise e
  end.

Definition tool_message (req : ToolCallRequest) (p : Payload) : Message :=
  {| role := Tool;
     content := match p with Success r => r | Failure err => describe err end;
     tool_call_requests := None;
     tool_call_result := Some {| result_call_id := call_id req; payload := p |} |}.

(** Modelled from the spec: [ToolNode] is the prebuilt dispatcher of
    the graph library and is not in [chatbot.py].  Section 4.2: one
    result message per request, in the order of the requests; a name
    absent from the registry and a failing invocation both become an
    error-bearing result message. *)
Definition dispatch (registry : gmap string ToolDefinition) (req : ToolCallRequest)
    : Message :=
  match registry !! tool_name req with
  | None => tool_message req (Failure (UnknownToolError (tool_name req)))
  | Some t =>
      match invocation t (arguments req) with
      | inr result => tool_message req (Success result)
      | inl e => tool_message req (Failure (ToolExecutionError e))
      end
  end.

Definition invoke_tools (registry : gmap string ToolDefinition)
    (reqs : list ToolCallRequest) : list Message :=
  map (dispatch registry) reqs.

Definition ToolNode (tools : list ToolDefinition) : Node :=
  fun state => ret {| messages := invoke_tools (registry_of tools) (pending state) |}.

Definition tool_node : Node := ToolNode [tool].

(** The result messages of the tool round a state is waiting for. *)
Definition tool_results (st : State) : list Message :=
  invoke_tools (registry_of [tool]) (pending st).

(** The builder calls of the source, in their order. *)
Definition graph_builder : StateGraph :=
  let g := StateGraph_init in
  let g := add_node "chatbot" chatbot g in
  let g := add_node "tools" tool_node g in
  let g := add_conditional_edges "chatbot" tools_condition
             [("tools", "tools"); (END, END)] g in
  let g := add_edge "tools" "chatbot" g in
  let g := add_edge START "chatbot" g in
  let g := add_edge "chatbot" END g in
  g.

(** [graph = graph_builder.compile(checkpointer=memory)]: the runs of
    [graph] load and save through the [memory] of the world. *)
Definition graph : StateGraph := graph_builder.

Definition config : Config := {| thread_id := "1" |}.

(** [def stream_graph_updates(user_input)]; every state value has the
    key "messages".  [step_limit] is no parameter of the source
    function: it is the step limit the library applies to the run. *)
Definition stream_graph_updates (step_limit : nat) (user_input : string) : M unit :=
  stream step_limit graph {| messages := [user_message user_input] |} config
    print_last_message.

Definition fallback_input : string := "What do you know about LangGraph?".

(** An input the loop may hand to the graph when standard input holds
    [lines]: one user message whose text is no terminate command and is
    either a line of standard input or the fallback question. *)
Definition graph_input (lines : list (Exn + string)) (input : list Message) : Prop :=
  exists text,
    input = [user_message text] /\
    string_in (lower text) ["quit"; "exit"; "q"] = false /\
    (inr text ∈ lines \/ text = fallback_input).

(** The body of the interactive loop. *)
Definition loop_body (step_limit : nat) : M Flow :=
  try_except
    (let* user_input := input "User: " in
     if string_in (lower user_input) ["quit"; "exit"; "q"] then
       let* _ := print "Goodbye!" in
       ret Break
     else
       let* _ := stream_graph_updates step_limit user_input in
       ret Continue)
    (let user_input := fallback_input in
     let* _ := print ("User: " ++ user_input) in
     let* _ := stream_graph_updates step_limit user_input in
     ret Break).

(** The handler of the loop on its own, for the proofs. *)
Definition fallback_turn (step_limit : nat) : M Flow :=
  let* _ := print ("User: " ++ fallback_input) in
  let* _ := stream_graph_updates step_limit fallback_input in
  ret Break.

(** [while True: ...]: [n] bounds the iterations, in this definition
    only; [step_limit] is the step limit of each run of the graph. *)
Definition interactive_chat_loop (n step_limit : nat) : M unit :=
  while_true n (loop_body step_limit).

(** A process run: [memory = MemorySaver()] is created empty when the
    script starts. *)
Definition fresh_process (lines : list (Exn + string)) : World :=
  {| memory := ∅; stdin := lines; journal := [] |}.

Definition main (n step_limit : nat) (lines : list (Exn + string))
    : World * Result unit :=
  interactive_chat_loop n step_limit (fresh_process lines).



(** ** Routing of the declared graph *)

Lemma triggered_START (st : State) (w : World) :
  triggered graph [START] st w = (w, Ok ["chatbot"]).
Proof. reflexivity. Qed.

Lemma triggered_tools (st : State) (w : World) :
  triggered graph ["tools"] st w = (w, Ok ["chatbot"]).
Proof. reflexivity. Qed.

Lemma triggered_chatbot (st : State) (w : World) :
  triggered graph ["chatbot"] st w =
  (w, Ok (match pending st with [] => [] | _ :: _ => ["tools"] end)).
Proof.
  unfold triggered, graph, graph_builder, bind. cbn.
  unfold tools_condition.
  destruct (pending st); reflexivity.
Qed.

(** ** One step at each node *)

Ltac world_eq :=
  unfold logged, saved; cbn; rewrite <- ?app_assoc; reflexivity.

Lemma pending_snoc (msgs : list Message) (m : Message) :
  pending {| messages := msgs ++ [m] |} = requests_of m.
Proof. unfold pending; cbn. by rewrite last_snoc. Qed.

Lemma superstep_chatbot (tid : string) (st : State) (w : World) (reply : Message) :
  llm_with_tools (messages st) = inr reply ->
  superstep graph tid ["chatbot"] st print_last_message w =
  (logged [NodeRun "chatbot"; ModelCall (messages st);
           Checkpoint tid (messages st ++ [reply]);
           Print ("Assistant: " ++ content reply)]
     (saved tid (messages st ++ [reply]) w),
   Ok (match requests_of reply with [] => [] | _ :: _ => ["tools"] end,
       {| messages := messages st ++ [reply] |})).
Proof.
  intros Hreply.
  unfold superstep, bind; cbn.
  unfold chatbot, bind; cbn. rewrite Hreply; cbn.
  unfold print_last_message, apply_update, add_messages; cbn.
  rewrite last_snoc; cbn.
  rewrite triggered_chatbot, pending_snoc.
  f_equal. world_eq.
Qed.

Lemma superstep_chatbot_raise (tid : string) (st : State) (w : World) (e : Exn) :
  llm_with_tools (messages st) = inl e ->
  superstep graph tid ["chatbot"] st print_last_message w =
  (logged [NodeRun "chatbot"; ModelCall (messages st)] w, Raise e).
Proof.
  intros Hreply.
  unfold superstep, bind; cbn.
  unfold chatbot, bind; cbn. rewrite Hreply; cbn.
  f_equal. world_eq.
Qed.

Lemma superstep_tools (tid : string) (st : State) (w : World) (m : Message) :
  last (messages st ++ tool_results st) = Some m ->
  superstep graph tid ["tools"] st print_last_message w =
  (logged [NodeRun "tools";
           Checkpoint tid (messages st ++ tool_results st);
           Print ("Assistant: " ++ content m)]
     (saved tid (messages st ++ tool_results st) w),
   Ok (["chatbot"], {| messages := messages st ++ tool_results st |})).
Proof.
  intros Hlast.
  unfold superstep, bind; cbn.
  unfold print_last_message, apply_update, add_messages; cbn.
  unfold tool_results in *. rewrite Hlast; cbn.
  f_equal. world_eq.
Qed.

(** ** Reading a journal that grew *)

Lemma printed_app (j1 j2 : list Effect) : printed (j1 ++ j2) = printed j1 ++ printed j2.
Proof. induction j1 as [|[] j1 IH]; cbn; rewrite ?IH; reflexivity. Qed.

Lemma streams_app (j1 j2 : list Effect) : streams (j1 ++ j2) = streams j1 ++ streams j2.
Proof. induction j1 as [|[] j1 IH]; cbn; rewrite ?IH; reflexivity. Qed.

Lemma checkpoints_app (j1 j2 : list Effect) :
  checkpoints (j1 ++ j2) = checkpoints j1 ++ checkpoints j2.
Proof. induction j1 as [|[] j1 IH]; cbn; rewrite ?IH; reflexivity. Qed.

Lemma model_calls_app (j1 j2 : list Effect) :
  model_calls (j1 ++ j2) = model_calls j1 ++ model_calls j2.
Proof. induction j1 as [|[] j1 IH]; cbn; rewrite ?IH; reflexivity. Qed.

Lemma tool_rounds_app (j1 j2 : list Effect) :
  tool_rounds (j1 ++ j2) = tool_rounds j1 + tool_rounds j2.
Proof. induction j1 as [|[] j1 IH]; cbn; rewrite ?IH; lia. Qed.

Lemma load_saved (tid : string) (msgs : list Message) (w : World) :
  load tid (saved tid msgs w) = msgs.
Proof. unfold load, saved; cbn. by rewrite lookup_insert_eq. Qed.

Lemma load_saved_ne (tid other : string) (msgs : list Message) (w : World) :
  tid <> other -> load other (saved tid msgs w) = load other w.
Proof. intros Hne. unfold load, saved; cbn. by rewrite lookup_insert_ne. Qed.

Lemma load_logged (tid : string) (es : list Effect) (w : World) :
  load tid (logged es w) = load tid w.
Proof. reflexivity. Qed.

Lemma lookup_map {A B} (f : A -> B) (l : list A) (i : nat) :
  map f l !! i = option_map f (l !! i).
Proof.
  revert i; induction l as [|a l IH]; intros [|i]; cbn; try reflexivity.
  apply IH.
Qed.

Lemma requests_of_empty (m : Message) :
  tool_call_requests m = None \/ tool_call_requests m = Some [] ->
  requests_of m = [].
Proof. unfold requests_of. intros [-> | ->]; reflexivity. Qed.

(** ** The loop controller *)

Lemma pregel_loop_done (fuel : nat) (g : StateGraph) (tid : string) (st : State)
    (yield : State -> M unit) :
  pregel_loop fuel g tid [] st yield = ret tt.
Proof. destruct fuel; reflexivity. Qed.

Lemma pregel_loop_step (fuel : nat) (g : StateGraph) (tid node : string)
    (active : list string) (st : State) (yield : State -> M unit) (w : World) :
  pregel_loop (S fuel) g tid (node :: active) st yield w =
  match superstep g tid (node :: active) st yield w with
  | (w', Ok next) => pregel_loop fuel g tid (fst next) (snd next) yield w'
  | (w', Raise e) => (w', Raise e)
  | (w', Unfinished) => (w', Unfinished)
  end.
Proof. reflexivity. Qed.

(** C2.  One-step turn termination: when the model node runs and the
    model returns an assistant message whose tool call requests are
    absent or empty, that single step schedules nothing (the routing
    condition chose [END]: the loop is [DONE]), the run ends there
    for any positive step budget, the tool node did not run, and the
    message is the last of the thread: the answer of the turn. *)
Theorem no_tool_request_ends_turn (tid : string) (st : State) (w : World)
    (reply : Message) (fuel : nat) :
  llm_with_tools (messages st) = inr reply ->
  tool_call_requests reply = None \/ tool_call_requests reply = Some [] ->
  let st' := {| messages := messages st ++ [reply] |} in
  let w' := logged [NodeRun "chatbot"; ModelCall (messages st);
                    Checkpoint tid (messages st ++ [reply]);
                    Print ("Assistant: " ++ content reply)]
              (saved tid (messages st ++ [reply]) w) in
  loop_state ["chatbot"] = Some AWAITING_MODEL /\
  (exists next,
      superstep graph tid ["chatbot"] st print_last_message w = (w', Ok (next, st')) /\
      loop_state next = Some DONE) /\
  pregel_loop (S fuel) graph tid ["chatbot"] st print_last_message w = (w', Ok tt) /\
  tool_rounds (journal w') = tool_rounds (journal w) /\
  last (load tid w') = Some reply.
Proof.
  intros Hreply Hnone st' w'.
  pose proof (requests_of_empty _ Hnone) as Hreq.
  pose proof (superstep_chatbot tid st w reply Hreply) as Hstep.
  rewrite Hreq in Hstep. fold st' w' in Hstep.
  split; [reflexivity|]. split; [|split; [|split]].
  - exists []. split; [exact Hstep | reflexivity].
  - rewrite pregel_loop_step, Hstep. cbn [fst snd].
    by rewrite pregel_loop_done.
  - unfold w'. cbn [journal logged saved]. rewrite tool_rounds_app. cbn. lia.
  - unfold w'. rewrite load_logged, load_saved. apply last_snoc.
Qed.

(** ** The tool dispatcher *)

Lemma last_tool_round (st : State) (req : ToolCallRequest) (i : nat) :
  pending st !! i = Some req ->
  exists m, last (messages st ++ tool_results st) = Some m.
Proof.
  intros Hreq.
  destruct (last (messages st ++ tool_results st)) as [m|] eqn:Hlast; [eauto|].
  apply last_None in Hlast. apply app_eq_nil in Hlast as [Hst _].
  unfold pending in Hreq. rewrite Hst in Hreq. cbn in Hreq.
  by rewrite lookup_nil in Hreq.
Qed.

(** C3.  Unknown-tool recoverability: when the tool node runs on
    pending requests of which one names a tool absent from the
    registry, the step raises nothing; the result message of that
    request is error-bearing (it carries [UnknownToolError] under the
    call id of the request), it is among the messages appended to the
    thread, and the next scheduled node is the model node
    ([AWAITING_MODEL]). *)
Theorem unknown_tool_is_recoverable (tid : string) (st : State) (w : World)
    (req : ToolCallRequest) (i : nat) :
  pending st !! i = Some req ->
  registry_of tools !! tool_name req = None ->
  let answer := dispatch (registry_of tools) req in
  exists w' next,
    superstep graph tid ["tools"] st print_last_message w =
      (w', Ok (next, {| messages := messages st ++ tool_results st |})) /\
    loop_state next = Some AWAITING_MODEL /\
    load tid w' = messages st ++ tool_results st /\
    tool_results st !! i = Some answer /\
    role answer = Tool /\
    is_error_bearing answer = true /\
    tool_call_result answer =
      Some {| result_call_id := call_id req;
              payload := Failure (UnknownToolError (tool_name req)) |}.
Proof.
  intros Hreq Hunknown answer.
  destruct (last_tool_round st req i Hreq) as [m Hlast].
  eexists _, _. split; [apply (superstep_tools tid st w m Hlast)|].
  split; [reflexivity|]. split; [by rewrite load_logged, load_saved|].
  split.
  - unfold tool_results, invoke_tools. rewrite lookup_map, Hreq. reflexivity.
  - unfold answer, dispatch. rewrite Hunknown. cbn. auto.
Qed.

(** C4.  Tool result order preservation: when the tool node runs on
    k pending requests (k at least 1, so in particular k at least 2),
    it appends exactly k result messages to the thread, and the i-th
    result is the answer to the i-th request, under its call id; the
    step then returns to the model node. *)
Theorem tool_results_follow_requests (tid : string) (st : State) (w : World) :
  1 <= length (pending st) ->
  exists w',
    superstep graph tid ["tools"] st print_last_message w =
      (w', Ok (["chatbot"], {| messages := messages st ++ tool_results st |})) /\
    load tid w' = messages st ++ tool_results st /\
    length (tool_results st) = length (pending st) /\
    map (fun m => result_call_id <$> tool_call_result m) (tool_results st) =
      map (fun req => Some (call_id req)) (pending st) /\
    (forall (i : nat) (req : ToolCallRequest),
        pending st !! i = Some req ->
        exists m,
          tool_results st !! i = Some m /\
          m = dispatch (registry_of tools) req /\
          role m = Tool /\
          result_call_id <$> tool_call_result m = Some (call_id req)).
Proof.
  intros Hk.
  assert (Hcall : forall req,
             result_call_id <$> tool_call_result (dispatch (registry_of tools) req)
             = Some (call_id req) /\ role (dispatch (registry_of tools) req) = Tool).
  { intros req. unfold dispatch.
    destruct (registry_of tools !! tool_name req) as [t|]; [|by split].
    destruct (invocation t (arguments req)); by split. }
  destruct (pending st) as [|req0 reqs] eqn:Hpending; [cbn in Hk; lia|].
  destruct (last_tool_round st req0 0) as [m Hlast]; [by rewrite Hpending|].
  eexists. split; [apply (superstep_tools tid st w m Hlast)|].
  split; [by rewrite load_logged, load_saved|].
  unfold tool_results, invoke_tools. rewrite Hpending.
  split; [by rewrite length_map|]. split.
  - rewrite map_map. apply map_ext. intros req. apply Hcall.
  - intros i req Hreq. exists (dispatch (registry_of tools) req).
    rewrite lookup_map, Hreq. cbn. destruct (Hcall req). auto.
Qed.

(** ** Rounds without a bound *)





(** ** What a run changes *)

Lemma superstep_tools_empty (tid : string) (st : State) (w : World) :
  last (messages st ++ tool_results st) = None ->
  superstep graph tid ["tools"] st print_last_message w =
  (logged [NodeRun "tools"; Checkpoint tid (messages st ++ tool_results st)]
     (saved tid (messages st ++ tool_results st) w),
   Raise IndexError).
Proof.
  intros Hlast.
  unfold superstep, bind; cbn.
  unfold print_last_message, apply_update, add_messages; cbn.
  unfold tool_results in *. rewrite Hlast; cbn.
  f_equal. world_eq.
Qed.

Lemma run_frame_refl (tid : string) (w : World) : run_frame tid w w.
Proof.
  split; try done. exists []. by rewrite app_nil_r.
Qed.

Lemma run_frame_trans (tid : string) (w1 w2 w3 : World) :
  run_frame tid w1 w2 -> run_frame tid w2 w3 -> run_frame tid w1 w3.
Proof.
  intros [Hs1 Ho1 Hp1 (es1 & Hj1 & Hf1)] [Hs2 Ho2 Hp2 (es2 & Hj2 & Hf2)].
  split.
  - congruence.
  - intros t Ht. rewrite Ho2, Ho1; done.
  - etrans; eauto.
  - exists (es1 ++ es2). split.
    + by rewrite Hj2, Hj1, app_assoc.
    + by apply Forall_app.
Qed.

Lemma run_frame_logged (tid : string) (es : list Effect) (w : World) :
  Forall (run_effect tid) es -> run_frame tid w (logged es w).
Proof. intros Hes. split; try done. by exists es. Qed.

Lemma run_frame_saved (tid : string) (es : list Effect) (more : list Message)
    (w : World) :
  Forall (run_effect tid) es ->
  run_frame tid w (logged es (saved tid (load tid w ++ more) w)).
Proof.
  intros Hes. split.
  - reflexivity.
  - intros t Ht. cbn. by rewrite lookup_insert_ne.
  - rewrite load_logged, load_saved. by apply prefix_app_r.
  - by exists es.
Qed.

Lemma pregel_loop_frame (tid : string) (fuel : nat) :
  forall (active : list string) (st : State) (w w' : World) (r : Result unit),
    active = [] \/ active = ["chatbot"] \/ active = ["tools"] ->
    load tid w = messages st ->
    pregel_loop fuel graph tid active st print_last_message w = (w', r) ->
    run_frame tid w w'.
Proof.
  induction fuel as [|fuel IH]; intros active st w w' r Hactive Hload Hrun.
  - destruct Hactive as [-> | [-> | ->]]; cbn in Hrun;
      injection Hrun as <- _; apply run_frame_refl.
  - destruct Hactive as [-> | [-> | ->]].
    + cbn in Hrun. injection Hrun as <- _. apply run_frame_refl.
    + rewrite pregel_loop_step in Hrun.
      destruct (llm_with_tools (messages st)) as [e|reply] eqn:Hreply.
      * rewrite (superstep_chatbot_raise tid st w e Hreply) in Hrun.
        injection Hrun as <- _. apply run_frame_logged.
        repeat constructor.
      * rewrite (superstep_chatbot tid st w reply Hreply) in Hrun.
        cbn [fst snd] in Hrun. rewrite <- Hload in Hrun.
        eapply run_frame_trans; [apply run_frame_saved|].
        2:{ eapply IH; [| |exact Hrun].
            - destruct (requests_of reply); auto.
            - by rewrite load_logged, load_saved. }
        repeat constructor.
    + rewrite pregel_loop_step in Hrun.
      destruct (last (messages st ++ tool_results st)) as [m|] eqn:Hlast.
      * rewrite (superstep_tools tid st w m Hlast) in Hrun.
        cbn [fst snd] in Hrun. rewrite <- Hload in Hrun.
        eapply run_frame_trans; [apply run_frame_saved|].
        2:{ eapply IH; [| |exact Hrun].
            - auto.
            - by rewrite load_logged, load_saved. }
        repeat constructor.
      * rewrite (superstep_tools_empty tid st w Hlast) in Hrun.
        injection Hrun as <- _. rewrite <- Hload.
        apply run_frame_saved. repeat constructor.
Qed.

Lemma stream_graph_updates_start (fuel : nat) (user_input : string) (w : World) :
  stream_graph_updates fuel user_input w =
  pregel_loop fuel graph "1" ["chatbot"]
    {| messages := load "1" w ++ [user_message user_input] |}
    print_last_message
    (logged [Stream "1" [user_message user_input];
             Checkpoint "1" (load "1" w ++ [user_message user_input]);
             Print ("Assistant: " ++ user_input)]
       (saved "1" (load "1" w ++ [user_message user_input]) w)).
Proof.
  unfold stream_graph_updates, stream, bind; cbn.
  unfold print_last_message, apply_update, add_messages; cbn.
  rewrite last_snoc; cbn.
  f_equal. world_eq.
Qed.

Lemma run_effects_streams (tid : string) (es : list Effect) :
  Forall (run_effect tid) es ->
  streams es = [] /\ Forall (eq tid) (checkpoints es).
Proof.
  induction 1 as [|e es He _ [IHs IHc]]; [by split|].
  destruct e; cbn in *; try done. split; [done|]. constructor; done.
Qed.

Lemma stream_graph_updates_frame (fuel : nat) (user_input : string)
    (w w' : World) (r : Result unit) :
  stream_graph_updates fuel user_input w = (w', r) ->
  stdin w' = stdin w /\
  (forall t, t <> "1" -> memory w' !! t = memory w !! t) /\
  (load "1" w ++ [user_message user_input]) `prefix_of` load "1" w' /\
  exists es,
    journal w' = journal w ++ Stream "1" [user_message user_input] :: es /\
    Forall (run_effect "1") es.
Proof.
  rewrite stream_graph_updates_start. intros Hrun.
  apply (pregel_loop_frame "1") in Hrun; [|auto|by rewrite load_logged, load_saved].
  destruct Hrun as [Hstdin Hothers Hprefix (es & Hj & Hes)].
  rewrite load_logged, load_saved in Hprefix.
  split; [exact Hstdin|]. split; [|split; [exact Hprefix|]].
  - intros t Ht. rewrite Hothers by done. cbn. by rewrite lookup_insert_ne.
  - eexists (_ :: _ :: es). split.
    + rewrite Hj. cbn. rewrite <- app_assoc. reflexivity.
    + repeat constructor. exact Hes.
Qed.

(** ** What the program changes *)

Lemma session_frame_refl (w : World) : session_frame w w.
Proof. split; try done. exists []. rewrite app_nil_r. by repeat split. Qed.

Lemma session_frame_trans (w1 w2 w3 : World) :
  session_frame w1 w2 -> session_frame w2 w3 -> session_frame w1 w3.
Proof.
  intros [Hg1 Ho1 (es1 & Hj1 & Hs1 & Hc1)] [Hg2 Ho2 (es2 & Hj2 & Hs2 & Hc2)].
  split.
  - intros tid. etrans; eauto.
  - intros t Ht. rewrite Ho2, Ho1; done.
  - exists (es1 ++ es2). split; [by rewrite Hj2, Hj1, app_assoc|].
    rewrite streams_app, checkpoints_app. split; by apply Forall_app.
Qed.

Lemma session_frame_logged (es : list Effect) (w : World) :
  streams es = [] -> checkpoints es = [] -> session_frame w (logged es w).
Proof.
  intros Hs Hc. split; try done. exists es. rewrite Hs, Hc. by repeat split.
Qed.

Lemma session_frame_reads (w : World) : session_frame w (reads w).
Proof.
  split; try done. exists [Prompt "User: "]. by repeat split.
Qed.

Lemma load_others (t : string) (w w' : World) :
  memory w' !! t = memory w !! t -> load t w' = load t w.
Proof. unfold load. by intros ->. Qed.

Lemma session_frame_turn (fuel : nat) (user_input : string) (w w' : World)
    (r : Result unit) :
  stream_graph_updates fuel user_input w = (w', r) -> session_frame w w'.
Proof.
  intros Hrun.
  apply stream_graph_updates_frame in Hrun as (_ & Hothers & Hprefix & es & Hj & Hes).
  apply run_effects_streams in Hes as [Hs Hc].
  split.
  - intros tid. destruct (decide (tid = "1")) as [->|Hne].
    + etrans; [|exact Hprefix]. by apply prefix_app_r.
    + by rewrite (load_others tid w w') by auto.
  - exact Hothers.
  - eexists. split; [exact Hj|]. cbn. rewrite Hs. split; [by repeat constructor|done].
Qed.

(** ** The interactive loop *)

Lemma loop_body_input_fails (fuel : nat) (w : World) :
  (stdin w = [] \/ exists e rest, stdin w = inl e :: rest) ->
  loop_body fuel w = fallback_turn fuel (reads w).
Proof.
  intros Hin. unfold loop_body, try_except, bind at 1, input, reads.
  destruct Hin as [-> | (e & rest & ->)]; reflexivity.
Qed.

Lemma loop_body_terminate (fuel : nat) (w : World) (line : string)
    (rest : list (Exn + string)) :
  stdin w = inr line :: rest ->
  string_in (lower line) ["quit"; "exit"; "q"] = true ->
  loop_body fuel w = (logged [Print "Goodbye!"] (reads w), Ok Break).
Proof.
  intros Hin Hcmd. unfold loop_body, try_except, bind at 1, input, reads.
  rewrite Hin, Hcmd. reflexivity.
Qed.

Lemma loop_body_turn (fuel : nat) (w : World) (line : string)
    (rest : list (Exn + string)) :
  stdin w = inr line :: rest ->
  string_in (lower line) ["quit"; "exit"; "q"] = false ->
  loop_body fuel w =
  match stream_graph_updates fuel line (reads w) with
  | (w1, Ok _) => (w1, Ok Continue)
  | (w1, Raise _) => fallback_turn fuel w1
  | (w1, Unfinished) => (w1, Unfinished)
  end.
Proof.
  intros Hin Hcmd. unfold loop_body, try_except, bind at 1, input, reads.
  rewrite Hin, Hcmd. unfold bind.
  destruct (stream_graph_updates fuel line _) as [w1 [[]|e|]]; reflexivity.
Qed.

Lemma fallback_turn_result (fuel : nat) (w : World) :
  fallback_turn fuel w =
  match stream_graph_updates fuel fallback_input
          (logged [Print ("User: " ++ fallback_input)] w) with
  | (w1, Ok _) => (w1, Ok Break)
  | (w1, Raise e) => (w1, Raise e)
  | (w1, Unfinished) => (w1, Unfinished)
  end.
Proof.
  unfold fallback_turn, bind, print, record, logged.
  destruct (stream_graph_updates fuel fallback_input _) as [w1 [[]|e|]]; reflexivity.
Qed.

Lemma session_frame_fallback (fuel : nat) (w w' : World) (r : Result Flow) :
  fallback_turn fuel w = (w', r) -> session_frame w w'.
Proof.
  rewrite fallback_turn_result.
  destruct (stream_graph_updates fuel fallback_input _) as [w1 r1] eqn:Hturn.
  apply session_frame_turn in Hturn.
  intros Hw. assert (w' = w1) as -> by (destruct r1; congruence).
  eapply session_frame_trans; [|exact Hturn].
  by apply session_frame_logged.
Qed.

Lemma session_frame_body (fuel : nat) (w w' : World) (r : Result Flow) :
  loop_body fuel w = (w', r) -> session_frame w w'.
Proof.
  destruct (stdin w) as [|[e|line] rest] eqn:Hin.
  - rewrite loop_body_input_fails by auto. intros Hf.
    apply session_frame_fallback in Hf.
    eapply session_frame_trans; [apply session_frame_reads|exact Hf].
  - rewrite loop_body_input_fails by eauto. intros Hf.
    apply session_frame_fallback in Hf.
    eapply session_frame_trans; [apply session_frame_reads|exact Hf].
  - destruct (string_in (lower line) ["quit"; "exit"; "q"]) eqn:Hcmd.
    + rewrite (loop_body_terminate fuel w line rest Hin Hcmd).
      intros [= <- _].
      eapply session_frame_trans; [apply session_frame_reads|].
      by apply session_frame_logged.
    + rewrite (loop_body_turn fuel w line rest Hin Hcmd).
      destruct (stream_graph_updates fuel line (reads w)) as [w1 r1] eqn:Hturn.
      apply session_frame_turn in Hturn.
      assert (session_frame w w1) as Hw1
          by (eapply session_frame_trans; [apply session_frame_reads|exact Hturn]).
      destruct r1 as [[]|e|].
      * by intros [= <- _].
      * intros Hf. apply session_frame_fallback in Hf.
        eapply session_frame_trans; eauto.
      * by intros [= <- _].
Qed.

Lemma session_frame_loop (fuel n : nat) :
  forall (w w' : World) (r : Result unit),
    while_true n (loop_body fuel) w = (w', r) -> session_frame w w'.
Proof.
  induction n as [|n IH]; intros w w' r Hloop.
  - injection Hloop as <- _. apply session_frame_refl.
  - cbn [while_true] in Hloop. unfold bind in Hloop.
    destruct (loop_body fuel w) as [w1 r1] eqn:Hbody.
    apply session_frame_body in Hbody.
    destruct r1 as [[]|e|].
    + apply IH in Hloop. eapply session_frame_trans; eauto.
    + by injection Hloop as <- _.
    + by injection Hloop as <- _.
    + by injection Hloop as <- _.
Qed.

Lemma terminate_command_spec (line : string) :
  string_in (lower line) ["quit"; "exit"; "q"] = true <->
  lower line = "quit" \/ lower line = "exit" \/ lower line = "q".
Proof.
  unfold string_in; cbn [existsb]. rewrite !orb_true_iff, !String.eqb_eq.
  intuition discriminate.
Qed.

(** C6.  Terminate command: when the line read has the lowercased
    text "quit", "exit" or "q", the loop prints its goodbye and ends,
    the script exits with code 0, and between the prompt and the exit
    the model is not called, no run of the graph starts and no
    checkpoint is written (the checkpointer is unchanged).  For every
    other line the graph is run on that line as the user message, and
    when that turn returns the loop goes on to its next iteration. *)
Theorem terminate_command_ends_program (n fuel : nat) (w : World) (line : string)
    (rest : list (Exn + string)) :
  stdin w = inr line :: rest ->
  (lower line = "quit" \/ lower line = "exit" \/ lower line = "q" ->
   let w' := logged [Print "Goodbye!"] (reads w) in
   interactive_chat_loop (S n) fuel w = (w', Ok tt) /\
   exit_code (snd (interactive_chat_loop (S n) fuel w)) = Some 0 /\
   memory w' = memory w /\
   model_calls (journal w') = model_calls (journal w) /\
   streams (journal w') = streams (journal w) /\
   checkpoints (journal w') = checkpoints (journal w)) /\
  (~ (lower line = "quit" \/ lower line = "exit" \/ lower line = "q") ->
   exists w1 r es,
     stream_graph_updates fuel line (reads w) = (w1, r) /\
     journal w1 =
       journal w ++ Prompt "User: " :: Stream "1" [user_message line] :: es /\
     (forall u, r = Ok u ->
                interactive_chat_loop (S n) fuel w = interactive_chat_loop n fuel w1)).
Proof.
  intros Hin. split.
  - intros Hcmd w'. apply terminate_command_spec in Hcmd.
    assert (Hloop : interactive_chat_loop (S n) fuel w = (w', Ok tt)).
    { unfold interactive_chat_loop; cbn [while_true]. unfold bind.
      by rewrite (loop_body_terminate fuel w line rest Hin Hcmd). }
    split; [exact Hloop|]. rewrite Hloop.
    split; [reflexivity|]. split; [reflexivity|].
    unfold w'; cbn [journal logged reads].
    rewrite <- !app_assoc, model_calls_app, streams_app, checkpoints_app; cbn.
    by rewrite !app_nil_r.
  - intros Hcmd. rewrite <- terminate_command_spec in Hcmd.
    apply not_true_is_false in Hcmd.
    destruct (stream_graph_updates fuel line (reads w)) as [w1 r] eqn:Hturn.
    pose proof (stream_graph_updates_frame _ _ _ _ _ Hturn)
      as (_ & _ & _ & es & Hj & _).
    exists w1, r, es. split; [reflexivity|]. split.
    + rewrite Hj. cbn [journal reads]. by rewrite <- app_assoc.
    + intros u ->. unfold interactive_chat_loop; cbn [while_true]. unfold bind.
      by rewrite (loop_body_turn fuel w line rest Hin Hcmd), Hturn.
Qed.

(** C9.  Input-failure fallback: when [input] raises (standard input
    is exhausted, or the read raises any exception), the program does
    not end at once: it prints the line "User: What do you know about
    LangGraph?", runs the graph once on that fixed input, and the
    loop ends with the outcome of that turn: whatever the iteration
    bound, nothing is read after the failed read and exactly one run
    of the graph is started. *)
Theorem input_failure_runs_one_fallback_turn (n fuel : nat) (w : World) :
  stdin w = [] \/ (exists e rest, stdin w = inl e :: rest) ->
  let w0 := logged [Print "User: What do you know about LangGraph?"] (reads w) in
  exists w' r,
    stream_graph_updates fuel "What do you know about LangGraph?" w0 = (w', r) /\
    interactive_chat_loop (S n) fuel w = (w', r) /\
    printed (journal w0) =
      printed (journal w) ++ ["User: What do you know about LangGraph?"] /\
    streams (journal w') = streams (journal w) ++ ["1"] /\
    (exists es, journal w' =
                journal w0 ++
                Stream "1" [user_message "What do you know about LangGraph?"] :: es) /\
    stdin w' = tail (stdin w).
Proof.
  intros Hin w0.
  destruct (stream_graph_updates fuel "What do you know about LangGraph?" w0)
    as [w' r] eqn:Hturn.
  exists w', r. split; [reflexivity|]. split.
  { unfold interactive_chat_loop; cbn [while_true]. unfold bind.
    rewrite (loop_body_input_fails fuel w Hin), fallback_turn_result.
    change (logged [Print ("User: " ++ fallback_input)] (reads w)) with w0.
    change fallback_input with "What do you know about LangGraph?".
    rewrite Hturn. by destruct r as [[]|e|]. }
  pose proof (stream_graph_updates_frame _ _ _ _ _ Hturn)
    as (Hstdin & _ & _ & es & Hj & Hes).
  apply run_effects_streams in Hes as [Hs _].
  split; [|split; [|split]].
  - unfold w0; cbn [journal logged reads].
    rewrite <- app_assoc, printed_app. cbn. reflexivity.
  - rewrite Hj. unfold w0; cbn [journal logged reads].
    rewrite <- !app_assoc, streams_app. cbn. by rewrite Hs.
  - by exists es.
  - by rewrite Hstdin.
Qed.

(** C10.  Fixed thread: in a process run, whatever the lines of
    standard input, every run of the graph and every checkpoint uses
    the thread "1" of [config], and the checkpointer holds no other
    thread. *)
Theorem every_run_uses_thread_1 (n fuel : nat) (lines : list (Exn + string)) :
  let w' := fst (main n fuel lines) in
  thread_id config = "1" /\
  Forall (eq "1") (streams (journal w')) /\
  Forall (eq "1") (checkpoints (journal w')) /\
  (forall t, t <> "1" -> memory w' !! t = None).
Proof.
  intros w'. split; [reflexivity|].
  destruct (main n fuel lines) as [w1 r] eqn:Hmain.
  apply session_frame_loop in Hmain as [_ Hothers (es & Hj & Hs & Hc)].
  cbn in Hj. subst w'. cbn [fst]. rewrite Hj.
  split; [exact Hs|]. split; [exact Hc|].
  intros t Ht. rewrite Hothers by done. apply lookup_empty.
Qed.

(** ** The message store *)








(** ** The checkpointer *)

Lemma first_model_call (tid : string) (fuel : nat) (st : State) (w w' : World)
    (r : Result unit) :
  load tid w = messages st ->
  pregel_loop (S fuel) graph tid ["chatbot"] st print_last_message w = (w', r) ->
  exists es, journal w' = journal w ++ NodeRun "chatbot" :: ModelCall (messages st) :: es.
Proof.
  intros Hload. rewrite pregel_loop_step.
  destruct (llm_with_tools (messages st)) as [e|reply] eqn:Hreply.
  - rewrite (superstep_chatbot_raise tid st w e Hreply).
    intros [= <- _]. by exists [].
  - rewrite (superstep_chatbot tid st w reply Hreply). cbn [fst snd].
    intros Hrun. apply (pregel_loop_frame tid) in Hrun.
    + destruct Hrun as [_ _ _ (es & Hj & _)]. eexists (_ :: _ :: es).
      rewrite Hj. cbn. by rewrite <- app_assoc.
    + destruct (requests_of reply); auto.
    + by rewrite load_logged, load_saved.
Qed.

(** C7, as the code has it.  The checkpointer is resident in memory:
    a process run starts with no saved thread; within a process run a
    load returns what was saved, and a run of the graph starts from
    the saved messages of the thread: its first call of the model
    receives them followed by the new user message, and they stay at
    the head of the thread. *)
Theorem saved_messages_resume_within_a_process (fuel : nat) (user_input : string)
    (w : World) :
  (forall (lines : list (Exn + string)) (tid : string),
      load tid (fresh_process lines) = []) /\
  (forall (tid : string) (st : State),
      load tid (fst (put_state tid st w)) = messages st) /\
  (exists w' r calls,
      stream_graph_updates (S fuel) user_input w = (w', r) /\
      model_calls (journal w') =
        model_calls (journal w) ++
        (load "1" w ++ [user_message user_input]) :: calls /\
      (load "1" w ++ [user_message user_input]) `prefix_of` load "1" w').
Proof.
  split; [|split].
  - intros lines tid. unfold load, fresh_process; cbn. by rewrite lookup_empty.
  - intros tid st. unfold load, put_state; cbn. by rewrite lookup_insert_eq.
  - destruct (stream_graph_updates (S fuel) user_input w) as [w' r] eqn:Hturn.
    pose proof (stream_graph_updates_frame _ _ _ _ _ Hturn) as (_ & _ & Hprefix & _).
    rewrite stream_graph_updates_start in Hturn.
    apply first_model_call in Hturn as [es Hj];
      [|by rewrite load_logged, load_saved].
    exists w', r, (model_calls es). split; [reflexivity|]. split; [|exact Hprefix].
    rewrite Hj. cbn [journal logged saved messages].
    rewrite <- app_assoc, model_calls_app. cbn. reflexivity.
Qed.

(** ** The console *)

(** C5, as the code has it.  In the end-to-end scenario (a user
    question on an empty thread, a reply of the model that asks for
    one tool call with call id "c1", its tool result, a final reply
    without requests) the run ends, the thread holds exactly the four
    messages user, assistant request, tool result, final assistant in
    that order, and the console shows one line per state value of the
    stream: the content of the user message, of the assistant
    request, of the tool result and of the final answer, in that
    order. *)
Theorem scenario_prints_every_state (fuel : nat) (question : string) (w : World)
    (ask answer : Message) (req : ToolCallRequest) :
  load "1" w = [] ->
  llm_with_tools [user_message question] = inr ask ->
  tool_call_requests ask = Some [req] ->
  call_id req = "c1" ->
  llm_with_tools [user_message question; ask; dispatch (registry_of tools) req]
    = inr answer ->
  requests_of answer = [] ->
  let result := dispatch (registry_of tools) req in
  exists w',
    stream_graph_updates (3 + fuel) question w = (w', Ok tt) /\
    load "1" w' = [user_message question; ask; result; answer] /\
    role result = Tool /\
    result_call_id <$> tool_call_result result = Some "c1" /\
    printed (journal w') =
      printed (journal w) ++
      [("Assistant: " ++ question)%string;
       ("Assistant: " ++ content ask)%string;
       ("Assistant: " ++ content result)%string;
       ("Assistant: " ++ content answer)%string].
Proof.
  intros Hempty Hask Hreq Hid Hanswer Hfinal result.
  assert (Hreqs : requests_of ask = [req]) by (unfold requests_of; by rewrite Hreq).
  assert (Hresults :
            tool_results {| messages := [user_message question; ask] |} = [result]).
  { unfold tool_results, pending; cbn. by rewrite Hreqs. }
  rewrite stream_graph_updates_start, Hempty. cbn [app].
  change (3 + fuel) with (S (S (S fuel))).
  rewrite pregel_loop_step,
    (superstep_chatbot "1" {| messages := [user_message question] |} _ ask Hask),
    Hreqs.
  cbn [fst snd messages app].
  rewrite pregel_loop_step, (superstep_tools "1" _ _ result);
    [|cbn [messages]; by rewrite Hresults].
  cbn [fst snd messages]. rewrite Hresults. cbn [app].
  rewrite pregel_loop_step,
    (superstep_chatbot "1" {| messages := [user_message question; ask; result] |}
       _ answer Hanswer),
    Hfinal.
  cbn [fst snd messages app]. rewrite pregel_loop_done.
  eexists. split; [reflexivity|].
  split; [by rewrite load_logged, load_saved|].
  assert (Hres : role result = Tool /\
                 result_call_id <$> tool_call_result result = Some "c1").
  { unfold result, dispatch. rewrite <- Hid.
    destruct (registry_of tools !! tool_name req) as [t|]; [|by split].
    destruct (invocation t (arguments req)); by split. }
  destruct Hres as [Hrole Hcall]. split; [exact Hrole|]. split; [exact Hcall|].
  cbn [journal logged saved]. rewrite <- !app_assoc, printed_app. reflexivity.
Qed.

(** ** Further properties of the turn and of the loop *)

(** X1.  A turn in which the model answers directly: the run of the
    graph starts from the saved thread, the model is called once with
    the thread followed by the new user message, the thread grows by
    exactly the user message and the reply, and the console gets two
    lines, the input and the reply, both under the label
    "Assistant:". *)
Theorem direct_answer_turn (fuel : nat) (user_input : string) (w : World)
    (reply : Message) :
  llm_with_tools (load "1" w ++ [user_message user_input]) = inr reply ->
  requests_of reply = [] ->
  exists w',
    stream_graph_updates (S fuel) user_input w = (w', Ok tt) /\
    load "1" w' = load "1" w ++ [user_message user_input; reply] /\
    printed (journal w') =
      printed (journal w) ++
      [("Assistant: " ++ user_input)%string; ("Assistant: " ++ content reply)%string] /\
    model_calls (journal w') =
      model_calls (journal w) ++ [load "1" w ++ [user_message user_input]] /\
    tool_rounds (journal w') = tool_rounds (journal w) /\
    stdin w' = stdin w.
Proof.
  intros Hreply Hnone.
  rewrite stream_graph_updates_start, pregel_loop_step,
    (superstep_chatbot "1" {| messages := load "1" w ++ [user_message user_input] |}
       _ reply Hreply), Hnone.
  cbn [fst snd]. rewrite pregel_loop_done.
  eexists. split; [reflexivity|].
  split; [rewrite load_logged, load_saved; cbn [messages]; by rewrite <- app_assoc|].
  cbn [journal logged saved messages].
  rewrite !printed_app, !model_calls_app, !tool_rounds_app. cbn.
  rewrite <- !app_assoc. cbn. repeat split; try reflexivity. lia.
Qed.

(** X2.  A failure of the model fails the turn: [chatbot] handles
    nothing, so the exception of the model call leaves
    [stream_graph_updates]; by then the user message is saved in the
    thread and printed, and nothing else is appended or printed. *)
Theorem model_failure_fails_turn (fuel : nat) (user_input : string) (w : World)
    (e : Exn) :
  llm_with_tools (load "1" w ++ [user_message user_input]) = inl e ->
  exists w',
    stream_graph_updates (S fuel) user_input w = (w', Raise e) /\
    load "1" w' = load "1" w ++ [user_message user_input] /\
    printed (journal w') =
      printed (journal w) ++ [("Assistant: " ++ user_input)%string] /\
    model_calls (journal w') =
      model_calls (journal w) ++ [load "1" w ++ [user_message user_input]] /\
    tool_rounds (journal w') = tool_rounds (journal w).
Proof.
  intros Hfail.
  rewrite stream_graph_updates_start, pregel_loop_step,
    (superstep_chatbot_raise "1"
       {| messages := load "1" w ++ [user_message user_input] |} _ e Hfail).
  eexists. split; [reflexivity|].
  split; [by rewrite !load_logged, load_saved|].
  cbn [journal logged saved messages].
  rewrite !printed_app, !model_calls_app, !tool_rounds_app. cbn.
  rewrite <- ?app_assoc. cbn. repeat split; try reflexivity. lia.
Qed.

(** X3.  A turn that raises is caught by the bare [except]: the loop
    prints the fallback line, runs the graph once more on the fallback
    question and ends with the outcome of that second turn; the lines
    still waiting on standard input are not read. *)
Theorem failed_turn_runs_fallback (n fuel : nat) (w w1 : World) (line : string)
    (rest : list (Exn + string)) (e : Exn) :
  stdin w = inr line :: rest ->
  string_in (lower line) ["quit"; "exit"; "q"] = false ->
  stream_graph_updates fuel line (reads w) = (w1, Raise e) ->
  exists w' r,
    stream_graph_updates fuel "What do you know about LangGraph?"
      (logged [Print "User: What do you know about LangGraph?"] w1) = (w', r) /\
    interactive_chat_loop (S n) fuel w = (w', r) /\
    stdin w' = rest /\
    streams (journal w') = streams (journal w) ++ ["1"; "1"] /\
    stream_inputs (journal w') =
      stream_inputs (journal w) ++
      [[user_message line]; [user_message "What do you know about LangGraph?"]].
Proof.
  intros Hin Hcmd Hturn.
  destruct (stream_graph_updates fuel "What do you know about LangGraph?"
              (logged [Print "User: What do you know about LangGraph?"] w1))
    as [w' r] eqn:Hfallback.
  exists w', r. split; [reflexivity|]. split.
  { unfold interactive_chat_loop; cbn [while_true]. unfold bind.
    rewrite (loop_body_turn fuel w line rest Hin Hcmd), Hturn, fallback_turn_result.
    change (logged [Print ("User: " ++ fallback_input)] w1)
      with (logged [Print "User: What do you know about LangGraph?"] w1).
    change fallback_input with "What do you know about LangGraph?".
    rewrite Hfallback. by destruct r as [[]|e'|]. }
  apply stream_graph_updates_frame in Hturn as (Hs1 & _ & _ & es1 & Hj1 & Hes1).
  apply stream_graph_updates_frame in Hfallback as (Hs2 & _ & _ & es2 & Hj2 & Hes2).
  assert (Hquiet : forall es, Forall (run_effect "1") es ->
                              streams es = [] /\ stream_inputs es = []).
  { induction 1 as [|x es Hx _ [IH1 IH2]]; [done|]. by destruct x. }
  destruct (Hquiet _ Hes1) as [Hst1 Hin1]. destruct (Hquiet _ Hes2) as [Hst2 Hin2].
  split; [|split].
  - rewrite Hs2. cbn [stdin logged]. rewrite Hs1. cbn [stdin reads]. by rewrite Hin.
  - rewrite Hj2. cbn [journal logged]. rewrite Hj1. cbn [journal reads].
    rewrite !streams_app. cbn. rewrite Hst1, Hst2, <- !app_assoc. reflexivity.
  - rewrite Hj2. cbn [journal logged]. rewrite Hj1. cbn [journal reads].
    assert (Happ : forall j1 j2, stream_inputs (j1 ++ j2)
                                 = stream_inputs j1 ++ stream_inputs j2).
    { induction j1 as [|[] j1 IH]; intros j2; cbn; by rewrite ?IH. }
    rewrite !Happ. cbn. rewrite Hin1, Hin2, <- !app_assoc. reflexivity.
Qed.



(** A run that ends normally, from the model node ([owed] is 1) or
    from the tool node ([owed] is 0). *)
Lemma pregel_loop_completed (tid : string) (fuel : nat) :
  forall (active : list string) (owed : nat) (st : State) (w w' : World),
    (active = ["chatbot"] /\ owed = 1) \/ (active = ["tools"] /\ owed = 0) ->
    pregel_loop fuel graph tid active st print_last_message w = (w', Ok tt) ->
    exists history reply,
      llm_with_tools history = inr reply /\
      requests_of reply = [] /\
      load tid w' = history ++ [reply] /\
      messages st `prefix_of` history /\
      length (model_calls (journal w')) + tool_rounds (journal w) =
        length (model_calls (journal w)) + tool_rounds (journal w') + owed /\
      last (printed (journal w')) = Some ("Assistant: " ++ content reply)%string.
Proof.
  induction fuel as [|fuel IH]; intros active owed st w w' Hactive Hrun.
  - destruct Hactive as [[-> _] | [-> _]]; discriminate Hrun.
  - destruct Hactive as [[-> ->] | [-> ->]]; rewrite pregel_loop_step in Hrun.
    + destruct (llm_with_tools (messages st)) as [e|reply] eqn:Hreply.
      { by rewrite (superstep_chatbot_raise tid st w e Hreply) in Hrun. }
      rewrite (superstep_chatbot tid st w reply Hreply) in Hrun.
      cbn [fst snd] in Hrun.
      destruct (requests_of reply) as [|req reqs] eqn:Hreq.
      * rewrite pregel_loop_done in Hrun. injection Hrun as <-.
        exists (messages st), reply. split; [exact Hreply|]. split; [exact Hreq|].
        split; [by rewrite load_logged, load_saved|]. split; [reflexivity|].
        cbn [journal logged saved].
        rewrite model_calls_app, tool_rounds_app, printed_app, length_app.
        cbn. split; [lia|]. apply last_snoc.
      * apply (IH ["tools"] 0) in Hrun; [|auto].
        destruct Hrun as (history & answer & Hanswer & Hnone & Hload & Hpre & Hcount & Hlast).
        exists history, answer. repeat (split; [done|]).
        split; [|split; [|exact Hlast]].
        -- etrans; [|exact Hpre]. by apply prefix_app_r.
        -- revert Hcount. cbn [journal logged saved].
           rewrite model_calls_app, tool_rounds_app, length_app. cbn. lia.
    + destruct (last (messages st ++ tool_results st)) as [m|] eqn:Hlast.
      2:{ by rewrite (superstep_tools_empty tid st w Hlast) in Hrun. }
      rewrite (superstep_tools tid st w m Hlast) in Hrun. cbn [fst snd] in Hrun.
      apply (IH ["chatbot"] 1) in Hrun; [|auto].
      destruct Hrun as (history & answer & Hanswer & Hnone & Hload & Hpre & Hcount & Hl).
      exists history, answer. repeat (split; [done|]).
      split; [|split; [|exact Hl]].
      * etrans; [|exact Hpre]. by apply prefix_app_r.
      * revert Hcount. cbn [journal logged saved].
        rewrite model_calls_app, tool_rounds_app, length_app. cbn. lia.
Qed.

(** X5.  What a completed turn leaves: when [stream_graph_updates]
    returns normally, the last message of the thread is a reply of the
    model to everything before it in the thread, that reply asks for no
    tool, it is the last line printed, the thread still starts with
    what it held followed by the user message, and the model was called
    exactly once more than the tool node ran. *)
Theorem completed_turn_ends_with_answer (fuel : nat) (user_input : string)
    (w w' : World) :
  stream_graph_updates fuel user_input w = (w', Ok tt) ->
  exists history reply,
    llm_with_tools history = inr reply /\
    requests_of reply = [] /\
    load "1" w' = history ++ [reply] /\
    (load "1" w ++ [user_message user_input]) `prefix_of` history /\
    length (model_calls (journal w')) + tool_rounds (journal w) =
      length (model_calls (journal w)) + tool_rounds (journal w') + 1 /\
    last (printed (journal w')) = Some ("Assistant: " ++ content reply)%string.
Proof.
  rewrite stream_graph_updates_start. intros Hrun.
  apply (pregel_loop_completed "1" fuel ["chatbot"] 1) in Hrun; [|auto].
  destruct Hrun as (history & reply & Hreply & Hnone & Hload & Hpre & Hcount & Hlast).
  exists history, reply. repeat (split; [done|]). split; [|exact Hlast].
  revert Hcount. cbn [journal logged saved].
  rewrite model_calls_app, tool_rounds_app, length_app. cbn. lia.
Qed.

Lemma labelled_app (j1 j2 : list Effect) :
  Forall labelled (printed j1) -> Forall labelled (printed j2) ->
  Forall labelled (printed (j1 ++ j2)).
Proof. intros H1 H2. rewrite printed_app. by apply Forall_app. Qed.

Lemma pregel_loop_labels (tid : string) (fuel : nat) :
  forall (active : list string) (st : State) (w w' : World) (r : Result unit),
    active = [] \/ active = ["chatbot"] \/ active = ["tools"] ->
    pregel_loop fuel graph tid active st print_last_message w = (w', r) ->
    exists es, journal w' = journal w ++ es /\ Forall labelled (printed es).
Proof.
  assert (Hnone : forall w0 : World,
             exists es, journal w0 = journal w0 ++ es /\ Forall labelled (printed es)).
  { intros w0. exists []. by rewrite app_nil_r. }
  assert (Hmore : forall (w0 w1 w2 : World) es0,
             journal w1 = journal w0 ++ es0 -> Forall labelled (printed es0) ->
             (exists es, journal w2 = journal w1 ++ es /\ Forall labelled (printed es)) ->
             exists es, journal w2 = journal w0 ++ es /\ Forall labelled (printed es)).
  { intros w0 w1 w2 es0 Hj0 Hl0 (es & Hj & Hl). exists (es0 ++ es). split.
    - by rewrite Hj, Hj0, app_assoc.
    - by apply labelled_app. }
  induction fuel as [|fuel IH]; intros active st w w' r Hactive Hrun.
  - destruct Hactive as [-> | [-> | ->]]; injection Hrun as <- _; apply Hnone.
  - destruct Hactive as [-> | [-> | ->]].
    + injection Hrun as <- _. apply Hnone.
    + rewrite pregel_loop_step in Hrun.
      destruct (llm_with_tools (messages st)) as [e|reply] eqn:Hreply.
      * rewrite (superstep_chatbot_raise tid st w e Hreply) in Hrun.
        injection Hrun as <- _. eexists. split; [reflexivity|]. constructor.
      * rewrite (superstep_chatbot tid st w reply Hreply) in Hrun.
        cbn [fst snd] in Hrun. apply IH in Hrun.
        2:{ destruct (requests_of reply); auto. }
        refine (Hmore w _ w' _ _ _ Hrun); [reflexivity|].
        cbn. repeat constructor. by eexists.
    + rewrite pregel_loop_step in Hrun.
      destruct (last (messages st ++ tool_results st)) as [m|] eqn:Hlast.
      * rewrite (superstep_tools tid st w m Hlast) in Hrun.
        cbn [fst snd] in Hrun. apply IH in Hrun; [|auto].
        refine (Hmore w _ w' _ _ _ Hrun); [reflexivity|].
        cbn. repeat constructor. by eexists.
      * rewrite (superstep_tools_empty tid st w Hlast) in Hrun.
        injection Hrun as <- _. eexists. split; [reflexivity|]. constructor.
Qed.

(** X6.  The console of a turn: whatever the model and the tools do and
    however the turn ends, the first line it prints is the user's own
    input under the label "Assistant:", and every further line it
    prints carries that label too. *)
Theorem turn_prints_labelled_lines (fuel : nat) (user_input : string) (w : World) :
  exists lines,
    printed (journal (fst (stream_graph_updates fuel user_input w))) =
      printed (journal w) ++ ("Assistant: " ++ user_input)%string :: lines /\
    Forall labelled lines.
Proof.
  destruct (stream_graph_updates fuel user_input w) as [w' r] eqn:Hrun.
  rewrite stream_graph_updates_start in Hrun.
  apply pregel_loop_labels in Hrun as (es & Hj & Hl); [|auto].
  exists (printed es). split; [|exact Hl].
  cbn [fst]. rewrite Hj. cbn [journal logged saved].
  rewrite !printed_app. cbn. by rewrite <- app_assoc.
Qed.

Lemma lower_length (s : string) : String.length (lower s) = String.length s.
Proof. induction s as [|c s IH]; cbn; by rewrite ?IH. Qed.

(** X7.  The terminate test compares the whole lowercased line, with
    nothing stripped: a line is a terminate command only if it has
    exactly 4 characters or exactly 1.  Every other line (the empty
    line, a command with a blank before or after it) is sent to the
    graph as the user message and the loop goes on when that turn
    returns. *)
Theorem other_lengths_run_a_turn (n fuel : nat) (w : World) (line : string)
    (rest : list (Exn + string)) :
  stdin w = inr line :: rest ->
  String.length line <> 4 ->
  String.length line <> 1 ->
  string_in (lower line) ["quit"; "exit"; "q"] = false /\
  exists w1 r es,
    stream_graph_updates fuel line (reads w) = (w1, r) /\
    journal w1 = journal w ++ Prompt "User: " :: Stream "1" [user_message line] :: es /\
    (forall u, r = Ok u ->
               interactive_chat_loop (S n) fuel w = interactive_chat_loop n fuel w1).
Proof.
  intros Hin H4 H1.
  assert (Hcmd : string_in (lower line) ["quit"; "exit"; "q"] = false).
  { apply not_true_is_false. rewrite terminate_command_spec.
    intros Hc. pose proof (lower_length line) as Hlen.
    destruct Hc as [Hc | [Hc | Hc]]; rewrite Hc in Hlen; cbn in Hlen; congruence. }
  split; [exact Hcmd|].
  destruct (stream_graph_updates fuel line (reads w)) as [w1 r] eqn:Hturn.
  pose proof (stream_graph_updates_frame _ _ _ _ _ Hturn) as (_ & _ & _ & es & Hj & _).
  exists w1, r, es. split; [reflexivity|]. split.
  - rewrite Hj. cbn [journal reads]. by rewrite <- app_assoc.
  - intros u ->. unfold interactive_chat_loop; cbn [while_true]. unfold bind.
    by rewrite (loop_body_turn fuel w line rest Hin Hcmd), Hturn.
Qed.

Lemma stream_inputs_app (j1 j2 : list Effect) :
  stream_inputs (j1 ++ j2) = stream_inputs j1 ++ stream_inputs j2.
Proof. induction j1 as [|[] j1 IH]; cbn; rewrite ?IH; reflexivity. Qed.

Lemma run_effects_inputs (tid : string) (es : list Effect) :
  Forall (run_effect tid) es -> stream_inputs es = [].
Proof. induction 1 as [|e es He _ IH]; [done|]. by destruct e. Qed.

Lemma turn_inputs (fuel : nat) (text : string) (w w' : World) (r : Result unit) :
  stream_graph_updates fuel text w = (w', r) ->
  stdin w' = stdin w /\
  exists es, journal w' = journal w ++ es /\ stream_inputs es = [[user_message text]].
Proof.
  intros Hturn.
  apply stream_graph_updates_frame in Hturn as (Hstdin & _ & _ & es & Hj & Hes).
  split; [exact Hstdin|]. eexists. split; [exact Hj|].
  cbn. by rewrite (run_effects_inputs "1" es Hes).
Qed.

Lemma fallback_turn_inputs (fuel : nat) (w w' : World) (r : Result Flow) :
  fallback_turn fuel w = (w', r) ->
  stdin w' = stdin w /\
  exists es,
    journal w' = journal w ++ es /\ stream_inputs es = [[user_message fallback_input]].
Proof.
  rewrite fallback_turn_result.
  destruct (stream_graph_updates fuel fallback_input _) as [w1 r1] eqn:Hturn.
  apply turn_inputs in Hturn as (Hstdin & es & Hj & Hes).
  intros Hw. assert (w' = w1) as -> by (destruct r1; congruence).
  split; [exact Hstdin|]. eexists (_ :: es). split.
  - rewrite Hj. cbn [journal logged]. by rewrite <- app_assoc.
  - exact Hes.
Qed.

Lemma graph_input_fallback (lines : list (Exn + string)) :
  graph_input lines [user_message fallback_input].
Proof. exists fallback_input. repeat split. by right. Qed.

Lemma graph_input_tail (lines : list (Exn + string)) (input : list Message) :
  graph_input (tail lines) input -> graph_input lines input.
Proof.
  intros (text & Hin & Hcmd & Hfrom). exists text. repeat (split; [done|]).
  destruct Hfrom as [Hline | ->]; [left | by right].
  destruct lines as [|x lines]; [done|]. by right.
Qed.

Lemma loop_body_inputs (fuel : nat) (w w' : World) (r : Result Flow) :
  loop_body fuel w = (w', r) ->
  stdin w' = tail (stdin w) /\
  exists es,
    journal w' = journal w ++ es /\ Forall (graph_input (stdin w)) (stream_inputs es).
Proof.
  assert (Hfail : fallback_turn fuel (reads w) = (w', r) ->
                  stdin w' = tail (stdin w) /\
                  exists es,
                    journal w' = journal w ++ es /\
                    Forall (graph_input (stdin w)) (stream_inputs es)).
  { intros Hf. apply fallback_turn_inputs in Hf as (Hstdin & es & Hj & Hes).
    split; [exact Hstdin|]. eexists (_ :: es). split.
    - rewrite Hj. cbn [journal reads]. by rewrite <- app_assoc.
    - cbn. rewrite Hes. repeat constructor. apply graph_input_fallback. }
  destruct (stdin w) as [|[e|line] rest] eqn:Hin.
  - rewrite loop_body_input_fails by auto. exact Hfail.
  - rewrite loop_body_input_fails by eauto. exact Hfail.
  - clear Hfail.
    destruct (string_in (lower line) ["quit"; "exit"; "q"]) eqn:Hcmd.
    + rewrite (loop_body_terminate fuel w line rest Hin Hcmd). intros [= <- _].
      split; [cbn; by rewrite Hin|]. eexists [_; _]. split.
      * cbn [journal logged reads]. by rewrite <- app_assoc.
      * constructor.
    + rewrite (loop_body_turn fuel w line rest Hin Hcmd).
      destruct (stream_graph_updates fuel line (reads w)) as [w1 r1] eqn:Hturn.
      apply turn_inputs in Hturn as (Hstdin & es & Hj & Hes).
      cbn [stdin reads] in Hstdin. rewrite Hin in Hstdin. cbn in Hstdin.
      assert (Hline : graph_input (inr line :: rest) [user_message line]).
      { exists line. repeat split; [done|]. left. by left. }
      assert (Hdone : w' = w1 ->
                      stdin w' = rest /\
                      exists es0,
                        journal w' = journal w ++ es0 /\
                        Forall (graph_input (inr line :: rest)) (stream_inputs es0)).
      { intros ->. split; [exact Hstdin|]. eexists (_ :: es). split.
        - rewrite Hj. cbn [journal reads]. by rewrite <- app_assoc.
        - cbn. rewrite Hes. by repeat constructor. }
      destruct r1 as [[]|e|].
      * intros [= <- _]. by apply Hdone.
      * intros Hf. apply fallback_turn_inputs in Hf as (Hstdin' & es' & Hj' & Hes').
        split; [cbn; congruence|]. exists ((Prompt "User: " :: es) ++ es'). split.
        -- rewrite Hj', Hj. cbn [journal reads]. by rewrite <- !app_assoc.
        -- rewrite stream_inputs_app. cbn. rewrite Hes, Hes'.
           repeat constructor; [done|]. apply graph_input_fallback.
      * intros [= <- _]. by apply Hdone.
Qed.

Lemma loop_inputs (fuel n : nat) :
  forall (w w' : World) (r : Result unit),
    interactive_chat_loop n fuel w = (w', r) ->
    exists es,
      journal w' = journal w ++ es /\ Forall (graph_input (stdin w)) (stream_inputs es).
Proof.
  induction n as [|n IH]; intros w w' r Hloop.
  - injection Hloop as <- _. exists []. by rewrite app_nil_r.
  - unfold interactive_chat_loop in Hloop; cbn [while_true] in Hloop.
    unfold bind in Hloop.
    destruct (loop_body fuel w) as [w1 r1] eqn:Hbody.
    apply loop_body_inputs in Hbody as (Hstdin & es & Hj & Hes).
    destruct r1 as [[]|e|]; try (injection Hloop as <- _; by exists es).
    apply IH in Hloop as (es' & Hj' & Hes').
    exists (es ++ es'). split; [by rewrite Hj', Hj, app_assoc|].
    rewrite stream_inputs_app. apply Forall_app. split; [exact Hes|].
    rewrite Hstdin in Hes'.
    eapply Forall_impl; [exact Hes'|]. intros input. apply graph_input_tail.
Qed.

(** X8.  What reaches the graph: in a process run, whatever standard
    input holds, every run of the graph gets exactly one user message,
    and its text is either a line of standard input or the fixed
    fallback question; a terminate command is never handed to the
    graph. *)
Theorem graph_inputs_are_lines_or_fallback (n fuel : nat) (lines : list (Exn + string)) :
  Forall
    (fun input : list Message =>
       exists text,
         input = [user_message text] /\
         string_in (lower text) ["quit"; "exit"; "q"] = false /\
         (inr text ∈ lines \/ text = "What do you know about LangGraph?"))
    (stream_inputs (journal (fst (main n fuel lines)))).
Proof.
  destruct (main n fuel lines) as [w' r] eqn:Hmain.
  apply loop_inputs in Hmain as (es & Hj & Hes).
  cbn [fst]. rewrite Hj. exact Hes.
Qed.

(** *** A model that never asks for a tool *)

Section DirectModel.

Hypothesis never_asks :
  forall (history : list Message) (reply : Message),
    llm_with_tools history = inr reply -> requests_of reply = [].

Lemma direct_turn_finishes (fuel : nat) (text : string) (w : World) :
  snd (stream_graph_updates (S fuel) text w) <> Unfinished.
Proof.
  rewrite stream_graph_updates_start, pregel_loop_step.
  destruct (llm_with_tools (load "1" w ++ [user_message text])) as [e|reply] eqn:Hreply.
  - by rewrite (superstep_chatbot_raise "1"
                  {| messages := load "1" w ++ [user_message text] |} _ e Hreply).
  - rewrite (superstep_chatbot "1"
               {| messages := load "1" w ++ [user_message text] |} _ reply Hreply).
    rewrite (never_asks _ _ Hreply). cbn [fst snd]. by rewrite pregel_loop_done.
Qed.

Lemma direct_fallback_finishes (fuel : nat) (w : World) :
  snd (fallback_turn (S fuel) w) <> Unfinished.
Proof.
  rewrite fallback_turn_result.
  pose proof (direct_turn_finishes fuel fallback_input
                (logged [Print ("User: " ++ fallback_input)] w)) as Hturn.
  destruct (stream_graph_updates (S fuel) fallback_input _) as [w1 [[]|e|]]; done.
Qed.

Lemma direct_body_finishes (fuel : nat) (w : World) :
  snd (loop_body (S fuel) w) <> Unfinished /\
  (snd (loop_body (S fuel) w) = Ok Continue -> stdin w <> []).
Proof.
  destruct (stdin w) as [|[e|line] rest] eqn:Hin.
  - rewrite loop_body_input_fails by auto. split; [apply direct_fallback_finishes|].
    rewrite fallback_turn_result.
    by destruct (stream_graph_updates (S fuel) fallback_input _) as [w1 [[]|e|]].
  - rewrite loop_body_input_fails by eauto. split; [apply direct_fallback_finishes|done].
  - split; [|done].
    destruct (string_in (lower line) ["quit"; "exit"; "q"]) eqn:Hcmd.
    + by rewrite (loop_body_terminate (S fuel) w line rest Hin Hcmd).
    + rewrite (loop_body_turn (S fuel) w line rest Hin Hcmd).
      pose proof (direct_turn_finishes fuel line (reads w)) as Hturn.
      destruct (stream_graph_updates (S fuel) line (reads w)) as [w1 [[]|e|]];
        try done. apply direct_fallback_finishes.
Qed.

Lemma direct_loop_finishes (fuel n : nat) :
  forall w : World,
    length (stdin w) < n ->
    snd (interactive_chat_loop n (S fuel) w) <> Unfinished.
Proof.
  induction n as [|n IH]; intros w Hlen; [lia|].
  unfold interactive_chat_loop; cbn [while_true]. unfold bind.
  destruct (direct_body_finishes fuel w) as [Hfin Hcont].
  destruct (loop_body (S fuel) w) as [w1 r1] eqn:Hbody.
  pose proof (loop_body_inputs _ _ _ _ Hbody) as [Hstdin _].
  cbn [snd] in Hfin, Hcont.
  destruct r1 as [[]|e|]; try done.
  apply IH. rewrite Hstdin.
  destruct (stdin w) as [|x rest]; [by destruct Hcont|]. cbn in *. lia.
Qed.

(** X9.  The program ends on a finite input: with a model that never
    asks for a tool, a process run over [lines] needs at most one
    iteration of the loop per line and one more (the read that fails at
    the end of input runs the fallback turn and breaks), so the script
    ends with a defined exit status. *)
Theorem direct_model_program_ends (fuel : nat) (lines : list (Exn + string)) :
  exists code : nat,
    exit_code (snd (main (S (length lines)) (S fuel) lines)) = Some code.
Proof.
  pose proof (direct_loop_finishes fuel (S (length lines)) (fresh_process lines))
    as Hfin.
  unfold main.
  destruct (snd (interactive_chat_loop (S (length lines)) (S fuel) (fresh_process lines)))
    as [[]|e|].
  - by exists 0.
  - destruct e; by eexists.
  - exfalso. apply Hfin; [cbn; lia|reflexivity].
Qed.

End DirectModel.

End Chatbot.

(** ** The theorems at the sample collaborators *)

(** A model that answers directly ends the turn in one step. *)
Lemma no_tool_request_ends_turn_witness :
  direct_llm [user_message "hello"] = inr final_answer /\
  exists w',
    pregel_loop 1 (graph direct_llm sample_tool sample_describe) "1" ["chatbot"]
      {| messages := [user_message "hello"] |} print_last_message (fresh_process [])
    = (w', Ok tt) /\
    last (load "1" w') = Some final_answer.
Proof.
  split; [reflexivity|].
  destruct (no_tool_request_ends_turn direct_llm sample_tool sample_describe "1"
              {| messages := [user_message "hello"] |} (fresh_process [])
              final_answer 0 eq_refl (or_introl eq_refl))
    as (_ & _ & Hrun & _ & Hlast).
  eexists. split; [exact Hrun | exact Hlast].
Defined.

(** The second of two requests names a tool that is not registered. *)
Lemma unknown_tool_is_recoverable_witness :
  registry_of (tools sample_tool) !! "calculator" = None /\
  exists w' next,
    superstep (graph sample_llm sample_tool sample_describe) "1" ["tools"]
      {| messages := [user_message "hello"; asks_two] |} print_last_message
      (fresh_process [])
    = (w', Ok (next, {| messages :=
                          [user_message "hello"; asks_two] ++
                          tool_results sample_tool sample_describe
                            {| messages := [user_message "hello"; asks_two] |} |})) /\
    loop_state next = Some AWAITING_MODEL.
Proof.
  split; [vm_compute; reflexivity|].
  destruct (unknown_tool_is_recoverable sample_llm sample_tool sample_describe "1"
              {| messages := [user_message "hello"; asks_two] |} (fresh_process [])
              calculator_request 1 eq_refl ltac:(vm_compute; reflexivity))
    as (w' & next & Hstep & Hstate & _).
  exists w', next. split; [exact Hstep | exact Hstate].
Defined.

(** Two requests in one message get two results in the same order. *)
Lemma tool_results_follow_requests_witness :
  pending {| messages := [user_message "hello"; asks_two] |}
  = [search_request; calculator_request] /\
  map (fun m => result_call_id <$> tool_call_result m)
    (tool_results sample_tool sample_describe
       {| messages := [user_message "hello"; asks_two] |})
  = [Some "c1"; Some "c2"].
Proof.
  split; [reflexivity|].
  destruct (tool_results_follow_requests sample_llm sample_tool sample_describe "1"
              {| messages := [user_message "hello"; asks_two] |} (fresh_process [])
              ltac:(cbn; lia))
    as (w' & _ & _ & _ & Hids & _).
  exact Hids.
Defined.

(** The end-to-end scenario: four messages in the thread, and four
    lines on the console, not the final answer alone. *)
Lemma console_shows_intermediate_messages :
  load "1"
    (fst (stream_graph_updates sample_llm sample_tool sample_describe 5
            "What's the weather in Paris?" (fresh_process [])))
  = [user_message "What's the weather in Paris?"; asks_search;
     tool_message sample_describe search_request (Success "Sunny, 21C");
     final_answer] /\
  printed
    (journal
       (fst (stream_graph_updates sample_llm sample_tool sample_describe 5
               "What's the weather in Paris?" (fresh_process []))))
  = ["Assistant: What's the weather in Paris?";
     "Assistant: Let me look that up.";
     "Assistant: Sunny, 21C";
     "Assistant: It is sunny in Paris."] /\
  printed
    (journal
       (fst (stream_graph_updates sample_llm sample_tool sample_describe 5
               "What's the weather in Paris?" (fresh_process []))))
  <> [("Assistant: " ++ content final_answer)%string].
Proof.
  split; [vm_compute; reflexivity|].
  split; [vm_compute; reflexivity|].
  vm_compute. discriminate.
Qed.

Lemma scenario_prints_every_state_witness :
  load "1" (fresh_process []) = [] /\
  sample_llm [user_message "What's the weather in Paris?"] = inr asks_search /\
  call_id search_request = "c1" /\
  exists w',
    stream_graph_updates sample_llm sample_tool sample_describe 3
      "What's the weather in Paris?" (fresh_process []) = (w', Ok tt) /\
    printed (journal w')
    = ["Assistant: What's the weather in Paris?";
       "Assistant: Let me look that up.";
       "Assistant: Sunny, 21C";
       "Assistant: It is sunny in Paris."].
Proof.
  split; [reflexivity|]. split; [reflexivity|]. split; [reflexivity|].
  destruct (scenario_prints_every_state sample_llm sample_tool sample_describe 0
              "What's the weather in Paris?" (fresh_process [])
              asks_search final_answer search_request
              eq_refl eq_refl eq_refl eq_refl
              ltac:(vm_compute; reflexivity) eq_refl)
    as (w' & Hrun & _ & _ & _ & Hprinted).
  exists w'. split; [exact Hrun|].
  rewrite Hprinted. vm_compute. reflexivity.
Defined.

(** "Quit" ends the program; "hello" starts a turn. *)
Lemma terminate_command_ends_program_witness :
  lower "Quit" = "quit" /\
  interactive_chat_loop sample_llm sample_tool sample_describe 1 5
    (fresh_process [inr "Quit"])
  = (logged [Print "Goodbye!"] (reads (fresh_process [inr "Quit"])), Ok tt) /\
  exit_code
    (snd (interactive_chat_loop sample_llm sample_tool sample_describe 1 5
            (fresh_process [inr "Quit"]))) = Some 0 /\
  exists w1 r es,
    stream_graph_updates sample_llm sample_tool sample_describe 5 "hello"
      (reads (fresh_process [inr "hello"])) = (w1, r) /\
    journal w1 = [] ++ Prompt "User: " :: Stream "1" [user_message "hello"] :: es.
Proof.
  split; [reflexivity|].
  destruct (terminate_command_ends_program sample_llm sample_tool sample_describe
              0 5 (fresh_process [inr "Quit"]) "Quit" [] eq_refl)
    as [Hquit _].
  destruct (Hquit (or_introl eq_refl)) as (Hloop & Hexit & _).
  split; [exact Hloop|]. split; [exact Hexit|].
  destruct (terminate_command_ends_program sample_llm sample_tool sample_describe
              0 5 (fresh_process [inr "hello"]) "hello" [] eq_refl)
    as [_ Hturn].
  destruct Hturn as (w1 & r & es & Hrun & Hj & _).
  { intros [H | [H | H]]; discriminate H. }
  exists w1, r, es. split; [exact Hrun | exact Hj].
Defined.

(** A restart loses the thread: the checkpointer of a new process run
    is empty, and its first call of the model sees the new message
    only. *)
Lemma thread_is_lost_on_restart :
  load "1"
    (fst (main sample_llm sample_tool sample_describe 2 5 [inr "hello"; inr "quit"]))
  = [user_message "hello"; asks_search;
     tool_message sample_describe search_request (Success "Sunny, 21C");
     final_answer] /\
  load "1" (fresh_process [inr "and then?"; inr "quit"]) = [] /\
  load "1" (fresh_process [inr "and then?"; inr "quit"])
  <> load "1"
       (fst (main sample_llm sample_tool sample_describe 2 5 [inr "hello"; inr "quit"])) /\
  head (model_calls
          (journal
             (fst (main sample_llm sample_tool sample_describe 2 5
                     [inr "and then?"; inr "quit"]))))
  = Some [user_message "and then?"].
Proof.
  split; [vm_compute; reflexivity|].
  split; [vm_compute; reflexivity|].
  split; [vm_compute; discriminate|].
  vm_compute; reflexivity.
Qed.





(** An exhausted standard input, and an interrupted read with a line
    still waiting: one fallback turn, then the end. *)
Lemma input_failure_runs_one_fallback_turn_witness :
  stdin (fresh_process []) = [] /\
  (exists w' r,
      interactive_chat_loop sample_llm sample_tool sample_describe 1 5
        (fresh_process []) = (w', r) /\
      streams (journal w') = [] ++ ["1"]) /\
  (exists w' r,
      interactive_chat_loop sample_llm sample_tool sample_describe 3 5
        (fresh_process [inl KeyboardInterrupt; inr "hello"]) = (w', r) /\
      streams (journal w') = [] ++ ["1"] /\
      stdin w' = [inr "hello"]).
Proof.
  split; [reflexivity|]. split.
  - destruct (input_failure_runs_one_fallback_turn sample_llm sample_tool
                sample_describe 0 5 (fresh_process []) (or_introl eq_refl))
      as (w' & r & _ & Hloop & _ & Hstreams & _).
    exists w', r. split; [exact Hloop | exact Hstreams].
  - destruct (input_failure_runs_one_fallback_turn sample_llm sample_tool
                sample_describe 2 5
                (fresh_process [inl KeyboardInterrupt; inr "hello"])
                (or_intror (ex_intro _ KeyboardInterrupt
                              (ex_intro _ [inr "hello"] eq_refl))))
      as (w' & r & _ & Hloop & _ & Hstreams & _ & Hstdin).
    exists w', r. split; [exact Hloop|]. split; [exact Hstreams | exact Hstdin].
Defined.

(** ** The further properties at the sample collaborators *)

(** A second turn on a thread that already holds one exchange. *)
Lemma direct_answer_turn_witness :
  direct_llm
    (load "1" (saved "1" [user_message "hi"; final_answer] (fresh_process []))
     ++ [user_message "hello"]) = inr final_answer /\
  exists w',
    stream_graph_updates direct_llm sample_tool sample_describe 1 "hello"
      (saved "1" [user_message "hi"; final_answer] (fresh_process [])) = (w', Ok tt) /\
    load "1" w' =
      load "1" (saved "1" [user_message "hi"; final_answer] (fresh_process []))
      ++ [user_message "hello"; final_answer].
Proof.
  split; [reflexivity|].
  destruct (direct_answer_turn direct_llm sample_tool sample_describe 0 "hello"
              (saved "1" [user_message "hi"; final_answer] (fresh_process []))
              final_answer eq_refl eq_refl)
    as (w' & Hrun & Hload & _).
  exists w'. split; [exact Hrun | exact Hload].
Defined.

(** The model is not available. *)
Lemma model_failure_fails_turn_witness :
  failing_llm (load "1" (fresh_process []) ++ [user_message "hello"])
  = inl (Exception "model unavailable") /\
  exists w',
    stream_graph_updates failing_llm sample_tool sample_describe 1 "hello"
      (fresh_process []) = (w', Raise (Exception "model unavailable")) /\
    load "1" w' = load "1" (fresh_process []) ++ [user_message "hello"].
Proof.
  split; [reflexivity|].
  destruct (model_failure_fails_turn failing_llm sample_tool sample_describe 0
              "hello" (fresh_process []) (Exception "model unavailable") eq_refl)
    as (w' & Hrun & Hload & _).
  exists w'. split; [exact Hrun | exact Hload].
Defined.

(** The turn on "boom" fails; the line "next" is never read. *)
Lemma failed_turn_runs_fallback_witness :
  string_in (lower "boom") ["quit"; "exit"; "q"] = false /\
  exists w' r,
    interactive_chat_loop flaky_llm sample_tool sample_describe 3 5
      (fresh_process [inr "boom"; inr "next"]) = (w', r) /\
    stdin w' = [inr "next"] /\
    streams (journal w') = [] ++ ["1"; "1"].
Proof.
  split; [reflexivity|].
  destruct (failed_turn_runs_fallback flaky_llm sample_tool sample_describe 2 5
              (fresh_process [inr "boom"; inr "next"])
              (fst (stream_graph_updates flaky_llm sample_tool sample_describe 5
                      "boom" (reads (fresh_process [inr "boom"; inr "next"]))))
              "boom" [inr "next"] (Exception "model unavailable")
              eq_refl eq_refl ltac:(vm_compute; reflexivity))
    as (w' & r & _ & Hloop & Hstdin & Hstreams & _).
  exists w', r. split; [exact Hloop|]. split; [exact Hstdin | exact Hstreams].
Defined.


(** The end-to-end scenario ends with the final answer: two calls of
    the model, one tool round. *)
Lemma completed_turn_ends_with_answer_witness :
  exists history reply,
    sample_llm history = inr reply /\
    requests_of reply = [] /\
    load "1"
      (fst (stream_graph_updates sample_llm sample_tool sample_describe 5
              "What's the weather in Paris?" (fresh_process [])))
    = history ++ [reply].
Proof.
  destruct (completed_turn_ends_with_answer sample_llm sample_tool sample_describe 5
              "What's the weather in Paris?" (fresh_process [])
              (fst (stream_graph_updates sample_llm sample_tool sample_describe 5
                      "What's the weather in Paris?" (fresh_process [])))
              ltac:(vm_compute; reflexivity))
    as (history & reply & Hreply & Hnone & Hload & _).
  exists history, reply. split; [exact Hreply|]. split; [exact Hnone | exact Hload].
Defined.

(** "quit" followed by a blank is no terminate command. *)
Lemma other_lengths_run_a_turn_witness :
  String.length "quit " = 5 /\
  string_in (lower "quit ") ["quit"; "exit"; "q"] = false /\
  exists w1 r es,
    stream_graph_updates sample_llm sample_tool sample_describe 5 "quit "
      (reads (fresh_process [inr "quit "])) = (w1, r) /\
    journal w1 = [] ++ Prompt "User: " :: Stream "1" [user_message "quit "] :: es.
Proof.
  split; [reflexivity|].
  destruct (other_lengths_run_a_turn sample_llm sample_tool sample_describe 0 5
              (fresh_process [inr "quit "]) "quit " [] eq_refl
              ltac:(cbn; lia) ltac:(cbn; lia))
    as (Hcmd & w1 & r & es & Hrun & Hj & _).
  split; [exact Hcmd|]. exists w1, r, es. split; [exact Hrun | exact Hj].
Defined.

(** A model that always answers directly: two lines, three iterations
    at most. *)
Lemma direct_model_program_ends_witness :
  (forall (history : list Message) (reply : Message),
      direct_llm history = inr reply -> requests_of reply = []) /\
  exists code : nat,
    exit_code
      (snd (main direct_llm sample_tool sample_describe 3 1
              [inr "hello"; inr "and then?"])) = Some code.
Proof.
  assert (Hdirect : forall (history : list Message) (reply : Message),
             direct_llm history = inr reply -> requests_of reply = []).
  { intros history reply Hreply. injection Hreply as <-. reflexivity. }
  split; [exact Hdirect|].
  exact (direct_model_program_ends direct_llm sample_tool sample_describe Hdirect 0
           [inr "hello"; inr "and then?"]).
Defined.
